(** * af-agent-config-research: chart scripts and mapping flattener

    A shallow embedding of the three Python scripts under
    [inbox/af-agent-config-research]:

    - [chart_script.py]   (module [ChartScript]):  the flow diagram;
    - [chart_script_1.py] (module [ChartScript1]): the hierarchy tree;
    - [script.py]         (module [Script]):       the mapping flattener.

    The scripts run top to bottom, so each one is embedded as a function
    from its literal data to what it hands to the plotting or export
    library: the list of traces and the layout of the figure, or the rows
    of the table.  Python exceptions are values of [exn] in the [result]
    monad; Python numbers are [PyNum.t] (unbounded integers and IEEE 754
    binary64 floats); Python dictionaries are insertion-ordered association
    lists ([PyDict.t]). *)

From Stdlib Require Import ZArith QArith Lqa String Ascii DecimalString List Lia Bool.
From Stdlib Require Import Floats.SpecFloat.
From Stdlib Require Import Qpower Qfield.
From stdpp Require Import base decidable option list strings gmap.
Import ListNotations.

Set Warnings "-register-all".

Local Open Scope string_scope.
Local Open Scope Z_scope.
Local Open Scope list_scope.

(** ** Exceptions and results *)

(** The exceptions the three scripts can raise before they reach the
    plotting or export library. *)
Inductive exn : Type :=
| KeyError (key : string)
| IndexError
| OverflowError.

Inductive result (A : Type) : Type :=
| Ok (a : A)
| Raise (e : exn).
Arguments Ok {A} a.
Arguments Raise {A} e.

#[global] Instance result_ret : MRet result := fun A a => Ok a.

#[global] Instance result_bind : MBind result := fun A B k r =>
  match r with
  | Ok a => k a
  | Raise e => Raise e
  end.

(** The exception is the failure of a subscription, as the dictionary or
    the list raised it. *)
Definition is_lookup_failure (e : exn) : bool :=
  match e with
  | KeyError _ | IndexError => true
  | OverflowError => false
  end.

(** [for x in l: s = body s x], stopping at the first exception. *)
Fixpoint for_each {S A} (body : S -> A -> result S) (l : list A) (s : S)
  : result S :=
  match l with
  | [] => Ok s
  | a :: l' => s' ← body s a; for_each body l' s'
  end.

(** [[f(a) for a in l]], stopping at the first exception. *)
Fixpoint map_result {A B} (f : A -> result B) (l : list A) : result (list B) :=
  match l with
  | [] => Ok []
  | a :: l' => b ← f a; bs ← map_result f l'; Ok (b :: bs)
  end.

(** ** Python numbers *)

Module PyNum.

(** binary64 *)
Definition prec : Z := 53.
Definition emax : Z := 1024.

Inductive t : Type :=
| Int (z : Z)
| Float (f : spec_float).

(** [float(z)]: correctly rounded; an integer that rounds beyond the
    largest double raises OverflowError. *)
Definition float_of_int (z : Z) : result spec_float :=
  match binary_normalize prec emax z 0 false with
  | S754_infinity _ => Raise OverflowError
  | f => Ok f
  end.

Definition to_float (a : t) : result spec_float :=
  match a with
  | Int z => float_of_int z
  | Float f => Ok f
  end.

(** A decimal literal [m / 10^e] of the source text, read as the nearest
    double (both [m] and [10^e] are below 2^53 wherever it is used). *)
Definition literal (m : Z) (e : Z) : spec_float :=
  SFdiv prec emax (binary_normalize prec emax m 0 false)
                  (binary_normalize prec emax (10 ^ e) 0 false).

Definition neg (a : t) : t :=
  match a with
  | Int z => Int (- z)
  | Float f => Float (SFopp f)
  end.

(** Binary operators: two ints stay ints, anything else is done on
    doubles after converting the int operand. *)
Definition binop (fz : Z -> Z -> Z)
                 (ff : spec_float -> spec_float -> spec_float)
                 (a b : t) : result t :=
  match a, b with
  | Int x, Int y => Ok (Int (fz x y))
  | _, _ => x ← to_float a; y ← to_float b; Ok (Float (ff x y))
  end.

Definition add : t -> t -> result t := binop Z.add (SFadd prec emax).
Definition sub : t -> t -> result t := binop Z.sub (SFsub prec emax).
Definition mul : t -> t -> result t := binop Z.mul (SFmul prec emax).

(** The exact value of a number, when it is finite. *)
Definition Q_of_float (f : spec_float) : option Q :=
  match f with
  | S754_zero _ => Some 0%Q
  | S754_finite s m e =>
      Some (inject_Z (cond_Zopp s (Zpos m)) * Qpower 2 e)%Q
  | _ => None
  end.

Definition value (a : t) : option Q :=
  match a with
  | Int z => Some (inject_Z z)
  | Float f => Q_of_float f
  end.

(** A number that is finite: it has an exact value. *)
Definition finite (a : t) : Prop :=
  match value a with
  | Some _ => True
  | None => False
  end.

(** A coordinate whose arithmetic cannot overflow: any float, or an
    int below 2^52 in magnitude (so that a difference of two of them is
    below 2^53). *)
Definition safe (a : t) : Prop :=
  match a with
  | Int z => Z.abs z < 2 ^ 52
  | Float _ => True
  end.

End PyNum.

(** ** Python strings: [str.title()] on ASCII *)

Module PyStr.

Definition is_lower (c : ascii) : bool :=
  ((97 <=? Z.of_nat (nat_of_ascii c)) && (Z.of_nat (nat_of_ascii c) <=? 122))%Z.

Definition is_upper (c : ascii) : bool :=
  ((65 <=? Z.of_nat (nat_of_ascii c)) && (Z.of_nat (nat_of_ascii c) <=? 90))%Z.

Definition to_upper (c : ascii) : ascii :=
  if is_lower c then ascii_of_nat (nat_of_ascii c - 32) else c.

Definition to_lower (c : ascii) : ascii :=
  if is_upper c then ascii_of_nat (nat_of_ascii c + 32) else c.

(** A character after a cased one is lowered, any other is raised; the
    characters that are not ASCII letters are uncased. *)
Fixpoint title_from (previous_is_cased : bool) (s : string) : string :=
  match s with
  | EmptyString => EmptyString
  | String c s' =>
      String (if previous_is_cased then to_lower c else to_upper c)
             (title_from (is_lower c || is_upper c) s')
  end.

Definition title (s : string) : string := title_from false s.

(** Truth value of a string: only the empty string is false. *)
Definition truthy (s : string) : bool :=
  match s with
  | EmptyString => false
  | _ => true
  end.

End PyStr.

(** ** Python dictionaries with string keys *)

Module PyDict.

(** Items in insertion order, keys pairwise distinct when built by
    [set] from the empty dictionary. *)
Definition t (V : Type) : Type := list (string * V).

Fixpoint get {V} (k : string) (d : t V) : option V :=
  match d with
  | [] => None
  | (k', v) :: d' => if String.eqb k k' then Some v else get k d'
  end.

(** [d[k] = v]: an existing key keeps its place, a new one goes last. *)
Fixpoint set {V} (k : string) (v : V) (d : t V) : t V :=
  match d with
  | [] => [(k, v)]
  | (k', v') :: d' =>
      if String.eqb k k' then (k', v) :: d' else (k', v') :: set k v d'
  end.

(** A dictionary display or comprehension: the items are stored from
    left to right. *)
Definition store {V} (d : t V) (kv : string * V) : t V :=
  set (fst kv) (snd kv) d.

Definition of_items {V} (l : list (string * V)) : t V :=
  fold_left store l [].

(** [d[k]] *)
Definition getitem {V} (k : string) (d : t V) : result V :=
  match get k d with
  | Some v => Ok v
  | None => Raise (KeyError k)
  end.

Definition keys {V} (d : t V) : list string := map fst d.

(** The first of the keys [refs] that [d] does not have. *)
Definition first_missing {V} (d : t V) (refs : list string) : option string :=
  List.find (fun k => match get k d with None => true | Some _ => false end)
            refs.

End PyDict.

(** ** The part of plotly the scripts use *)

Module Plotly.

Record line : Type := Line { line_color : string; line_width : Z }.

Record marker : Type := Marker {
  symbol : option string;
  size : Z;
  color : string;
  marker_line : option line
}.

Record font : Type := Font { font_size : Z; font_color : string }.

Inductive text_arg : Type :=
| Text (s : string)
| Texts (l : list string).

(** [go.Scatter(...)]; [None] is an argument left out. *)
Record scatter : Type := Scatter {
  x : list PyNum.t;
  y : list PyNum.t;
  mode : string;
  trace_line : option line;
  trace_marker : option marker;
  text : option text_arg;
  textposition : option string;
  textfont : option font;
  name : option string;
  showlegend : bool;
  hoverinfo : string;
  hovertext : option (list string)
}.

Definition set_showlegend (b : bool) (tr : scatter) : scatter :=
  Scatter (x tr) (y tr) (mode tr) (trace_line tr) (trace_marker tr)
          (text tr) (textposition tr) (textfont tr) (name tr) b
          (hoverinfo tr) (hovertext tr).

Record axis : Type := Axis {
  showgrid : bool;
  zeroline : bool;
  showticklabels : bool;
  range : option (PyNum.t * PyNum.t)
}.

Record legend : Type := Legend {
  orientation : string;
  yanchor : string;
  legend_y : PyNum.t;
  xanchor : string;
  legend_x : PyNum.t
}.

Record layout : Type := Layout {
  layout_title : string;
  layout_showlegend : option bool;
  xaxis : axis;
  yaxis : axis;
  plot_bgcolor : string;
  paper_bgcolor : option string;
  layout_legend : option legend
}.

(** What [fig.write_image] is given. *)
Record figure : Type := Figure {
  fig_data : list scatter;
  fig_layout : layout;
  image_file : string
}.

(** [fig.add_trace(tr)] on the trace list. *)
Definition add_trace (traces : list scatter) (tr : scatter) : list scatter :=
  traces ++ [tr].

(** The geometry of a trace: its coordinates and its colours. *)
Definition trace_geometry (tr : scatter)
  : list PyNum.t * list PyNum.t * option string * option string :=
  (x tr, y tr, option_map color (trace_marker tr),
   option_map line_color (trace_line tr)).

Definition geometry (fig : figure)
  : list (list PyNum.t * list PyNum.t * option string * option string) :=
  map trace_geometry (fig_data fig).

(** The geometry a run of a script produces, or its exception. *)
Definition run_geometry (run : result figure)
  : result (list (list PyNum.t * list PyNum.t * option string * option string)) :=
  fig ← run; Ok (geometry fig).

(** The names in the legend: the traces shown there, in order. *)
Definition legend_entries (traces : list scatter) : list (option string) :=
  map name (List.filter showlegend traces).

(** The traces that put an entry named [label] in the legend. *)
Definition legend_entries_named (label : string) (traces : list scatter)
  : list scatter :=
  List.filter (fun tr => showlegend tr
                         && match name tr with
                            | Some n => String.eqb n label
                            | None => false
                            end) traces.

(** [a] lies strictly inside the axis range [r]. *)
Definition strictly_inside (a : PyNum.t) (r : PyNum.t * PyNum.t) : Prop :=
  match PyNum.value (fst r), PyNum.value a, PyNum.value (snd r) with
  | Some lo, Some q, Some hi => (lo < q)%Q /\ (q < hi)%Q
  | _, _, _ => False
  end.

End Plotly.


(** ** chart_script.py: the flow diagram *)

Module ChartScript.
Import Plotly.

(** An item of [data["nodes"]]. *)
Record node : Type := Node {
  node_id : string;
  node_label : string;
  node_type : string;
  node_x : PyNum.t;
  node_y : PyNum.t
}.

(** An item of [data["edges"]]. *)
Record edge : Type := Edge {
  edge_from : string;
  edge_to : string;
  edge_label : string
}.

Record graph : Type := Graph {
  nodes : list node;
  edges : list edge
}.

Definition nl : string := String (ascii_of_nat 10) EmptyString.

Definition data : graph := {|
  nodes := [
    Node "af_file" (".af File" ++ nl ++ "(JSON)") "input" (PyNum.Int 50) (PyNum.Int 200);
    Node "validator" ("Zod Schema" ++ nl ++ "Validator") "process" (PyNum.Int 200) (PyNum.Int 200);
    Node "parser" "AF Parser" "process" (PyNum.Int 350) (PyNum.Int 200);
    Node "memory_converter" ("Memory" ++ nl ++ "Converter") "process" (PyNum.Int 500) (PyNum.Int 100);
    Node "tool_converter" ("Tool" ++ nl ++ "Converter") "process" (PyNum.Int 500) (PyNum.Int 200);
    Node "config_converter" ("Config" ++ nl ++ "Converter") "process" (PyNum.Int 500) (PyNum.Int 300);
    Node "agent_factory" ("Mastra Agent" ++ nl ++ "Factory") "process" (PyNum.Int 650) (PyNum.Int 200);
    Node "mastra_agent" ("Mastra Agent" ++ nl ++ "Instance") "output" (PyNum.Int 800) (PyNum.Int 200);
    Node "export_serializer" ("Export" ++ nl ++ "Serializer") "process" (PyNum.Int 650) (PyNum.Int 350);
    Node "export_af" ("Exported" ++ nl ++ ".af File") "output" (PyNum.Int 800) (PyNum.Int 350)
  ];
  edges := [
    Edge "af_file" "validator" "Parse JSON";
    Edge "validator" "parser" "Valid .af";
    Edge "parser" "memory_converter" ("Core Memory +" ++ nl ++ "Messages");
    Edge "parser" "tool_converter" ("Tools +" ++ nl ++ "Tool Rules");
    Edge "parser" "config_converter" ("LLM Config +" ++ nl ++ "Embedding Config");
    Edge "memory_converter" "agent_factory" "Memory Object";
    Edge "tool_converter" "agent_factory" "Tools Array";
    Edge "config_converter" "agent_factory" "Model Config";
    Edge "agent_factory" "mastra_agent" "Create Agent";
    Edge "mastra_agent" "export_serializer" "Export Request";
    Edge "export_serializer" "export_af" "Serialize to .af"
  ]
|}.

(** [{node["id"]: (node["x"], node["y"]) for node in data["nodes"]}] *)
Definition node_positions (g : graph) : PyDict.t (PyNum.t * PyNum.t) :=
  PyDict.of_items (map (fun n => (node_id n, (node_x n, node_y n))) (nodes g)).

Definition type_colors : PyDict.t string :=
  PyDict.of_items [("input", "#1FB8CD"); ("process", "#FFC185"); ("output", "#5D878F")].

(** The literal [0.9]. *)
Definition c0_9 : PyNum.t := PyNum.Float (PyNum.literal 9 1).

(** [a + 0.9 * (b - a)], as Python evaluates it: the difference, the
    product, then the sum. *)
Definition arrow_coord (a b : PyNum.t) : result PyNum.t :=
  d ← PyNum.sub b a;
  p ← PyNum.mul c0_9 d;
  PyNum.add a p.

Definition line_trace (from_pos to_pos : PyNum.t * PyNum.t) : scatter := {|
  x := [fst from_pos; fst to_pos];
  y := [snd from_pos; snd to_pos];
  mode := "lines";
  trace_line := Some (Line "#13343B" 2);
  trace_marker := None;
  text := None;
  textposition := None;
  textfont := None;
  name := None;
  showlegend := false;
  hoverinfo := "skip";
  hovertext := None
|}.

Definition arrow_trace (arrow_x arrow_y : PyNum.t) : scatter := {|
  x := [arrow_x];
  y := [arrow_y];
  mode := "markers";
  trace_line := None;
  trace_marker := Some (Marker (Some "triangle-right") 8 "#13343B" None);
  text := None;
  textposition := None;
  textfont := None;
  name := None;
  showlegend := false;
  hoverinfo := "skip";
  hovertext := None
|}.

(** The body of [for edge in data["edges"]]. *)
Definition edge_body (positions : PyDict.t (PyNum.t * PyNum.t))
    (traces : list scatter) (e : edge) : result (list scatter) :=
  from_pos ← PyDict.getitem (edge_from e) positions;
  to_pos ← PyDict.getitem (edge_to e) positions;
  let traces := add_trace traces (line_trace from_pos to_pos) in
  arrow_x ← arrow_coord (fst from_pos) (fst to_pos);
  arrow_y ← arrow_coord (snd from_pos) (snd to_pos);
  Ok (add_trace traces (arrow_trace arrow_x arrow_y)).

Definition node_trace (n : node) (fill : string) : scatter := {|
  x := [node_x n];
  y := [node_y n];
  mode := "markers+text";
  trace_line := None;
  trace_marker := Some (Marker None 60 fill (Some (Line "#13343B" 2)));
  text := Some (Text (node_label n));
  textposition := Some "middle center";
  textfont := Some (Font 10 "black");
  name := Some (PyStr.title (node_type n));
  showlegend := true;
  hoverinfo := "skip";
  hovertext := None
|}.

(** The body of [for node in data["nodes"]]. *)
Definition node_body (traces : list scatter) (n : node) : result (list scatter) :=
  fill ← PyDict.getitem (node_type n) type_colors;
  Ok (add_trace traces (node_trace n fill)).

(** The body of [for trace in fig.data], on one trace and the set of
    names seen so far. *)
Definition legend_body (seen_types : gset string) (trace : scatter)
  : gset string * scatter :=
  match name trace with
  | Some n =>
      if PyStr.truthy n then
        if bool_decide (n ∈ seen_types)
        then (seen_types, set_showlegend false trace)
        else ({[ n ]} ∪ seen_types, trace)
      else (seen_types, trace)
  | None => (seen_types, trace)
  end.

(** "Remove duplicate legend entries": the traces keep their places. *)
Fixpoint remove_duplicate_legend (seen_types : gset string)
    (traces : list scatter) : list scatter :=
  match traces with
  | [] => []
  | trace :: rest =>
      let '(seen, trace') := legend_body seen_types trace in
      trace' :: remove_duplicate_legend seen rest
  end.

Definition flow_layout : layout := {|
  layout_title := "Mastra .af Agent Architecture";
  layout_showlegend := None;
  xaxis := Axis false false false (Some (PyNum.Int (-20), PyNum.Int 870));
  yaxis := Axis false false false (Some (PyNum.Int 50, PyNum.Int 400));
  plot_bgcolor := "white";
  paper_bgcolor := None;
  layout_legend := Some (Legend "h" "bottom"
                           (PyNum.Float (PyNum.literal 105 2)) "center"
                           (PyNum.Float (PyNum.literal 5 1)))
|}.

(** The whole script on the graph [g]: the figure given to
    [write_image], or the exception that stops the script. *)
Definition render (g : graph) : result figure :=
  let positions := node_positions g in
  traces ← for_each (edge_body positions) (edges g) [];
  traces ← for_each node_body (nodes g) traces;
  Ok {| fig_data := remove_duplicate_legend ∅ traces;
        fig_layout := flow_layout;
        image_file := "mastra_af_architecture.png" |}.

(** The two traces an edge adds: the segment and its arrowhead. *)
Definition edge_traces (positions : PyDict.t (PyNum.t * PyNum.t)) (e : edge) (line arrow : scatter) : Prop :=
  exists from_pos to_pos arrow_x arrow_y,
    PyDict.get (edge_from e) positions = Some from_pos
    /\ PyDict.get (edge_to e) positions = Some to_pos
    /\ arrow_coord (fst from_pos) (fst to_pos) = Ok arrow_x
    /\ arrow_coord (snd from_pos) (snd to_pos) = Ok arrow_y
    /\ line = line_trace from_pos to_pos
    /\ arrow = arrow_trace arrow_x arrow_y.

(** What the edge loop appends for the edges [es]. *)
Definition edge_part (positions : PyDict.t (PyNum.t * PyNum.t)) (es : list edge) (part : list scatter) : Prop :=
  length part = (2 * length es)%nat
  /\ Forall (fun tr => name tr = None /\ showlegend tr = false) part
  /\ forall i e, es !! i = Some e ->
       exists line arrow,
         edge_traces positions e line arrow
         /\ part !! (2 * i)%nat = Some line
         /\ part !! (2 * i + 1)%nat = Some arrow.

(** What the node loop appends for the nodes [ns]. *)
Definition node_part (ns : list node) (part : list scatter) : Prop :=
  Forall2 (fun n tr => exists fill,
             PyDict.get (node_type n) type_colors = Some fill
             /\ tr = node_trace n fill) ns part.

(** The node identifiers an edge list refers to, in the order the loop
    looks them up. *)
Definition references (es : list edge) : list string :=
  flat_map (fun e => [edge_from e; edge_to e]) es.

(** The position the specification gives for the arrowhead of an edge,
    in exact rational arithmetic: [p1 + 9/10 * (p2 - p1)]. *)
Definition exact_arrow_coord (a b : PyNum.t) : option Q :=
  match PyNum.value a, PyNum.value b with
  | Some p1, Some p2 => Some (p1 + (9 # 10) * (p2 - p1))%Q
  | _, _ => None
  end.

(** In [fig], the arrowhead of the [i]-th edge [e] of [g] sits exactly,
    as a rational point, where the specification puts it. *)
Definition arrow_at_exact_position (g : graph) (fig : figure) (i : nat)
    (e : edge) : Prop :=
  match PyDict.get (edge_from e) (node_positions g),
        PyDict.get (edge_to e) (node_positions g),
        fig_data fig !! (2 * i + 1)%nat with
  | Some from_pos, Some to_pos, Some tr =>
      match x tr, y tr with
      | [arrow_x], [arrow_y] =>
          match PyNum.value arrow_x, PyNum.value arrow_y,
                exact_arrow_coord (fst from_pos) (fst to_pos),
                exact_arrow_coord (snd from_pos) (snd to_pos) with
          | Some qx, Some qy, Some px, Some py => (qx == px)%Q /\ (qy == py)%Q
          | _, _, _, _ => False
          end
      | _, _ => False
      end
  | _, _, _ => False
  end.

(** The direction in which plotly draws the tip of a triangle symbol. *)
Definition symbol_direction (s : string) : option (Q * Q) :=
  if String.eqb s "triangle-right" then Some (1, 0)%Q
  else if String.eqb s "triangle-left" then Some (- (1), 0)%Q
  else if String.eqb s "triangle-up" then Some (0, 1)%Q
  else if String.eqb s "triangle-down" then Some (0, - (1))%Q
  else None.

(** A marker symbol at least leans toward the destination: its tip has a
    positive component along the edge. *)
Definition oriented_toward (s : option string)
    (from_pos to_pos : PyNum.t * PyNum.t) : Prop :=
  match s with
  | Some s =>
      match symbol_direction s,
            PyNum.value (fst from_pos), PyNum.value (snd from_pos),
            PyNum.value (fst to_pos), PyNum.value (snd to_pos) with
      | Some (dx, dy), Some x1, Some y1, Some x2, Some y2 =>
          (0 < dx * (x2 - x1) + dy * (y2 - y1))%Q
      | _, _, _, _, _ => False
      end
  | None => False
  end.

(** The reading of the specification under which every arrowhead is
    oriented toward the destination of its edge. *)
Definition arrowheads_oriented (g : graph) : Prop :=
  forall fig i e,
    render g = Ok fig ->
    edges g !! i = Some e ->
    exists from_pos to_pos tr m,
      PyDict.get (edge_from e) (node_positions g) = Some from_pos
      /\ PyDict.get (edge_to e) (node_positions g) = Some to_pos
      /\ fig_data fig !! (2 * i + 1)%nat = Some tr
      /\ trace_marker tr = Some m
      /\ oriented_toward (symbol m) from_pos to_pos.

(** The node's category has a colour. *)
Definition known_type (n : node) : bool :=
  match PyDict.get (node_type n) type_colors with
  | Some _ => true
  | None => false
  end.

Definition safe_coordinates (g : graph) : Prop :=
  Forall (fun n => PyNum.safe (node_x n) /\ PyNum.safe (node_y n)) (nodes g).

(** The last node of [g] with identifier [k]. *)
Definition last_node (g : graph) (k : string) : option node :=
  List.find (fun n => String.eqb (node_id n) k) (rev (nodes g)).

(** A graph that names a node it does not have. *)
Definition dangling_graph : graph :=
  Graph [Node "a" "A" "input" (PyNum.Int 0) (PyNum.Int 0)]
        [Edge "a" "ghost" ""].

(** Some edge of [g] names a node that [g] does not have. *)
Definition dangling (g : graph) : Prop :=
  exists e, In e (edges g)
            /\ (~ In (edge_from e) (map node_id (nodes g))
                \/ ~ In (edge_to e) (map node_id (nodes g))).

End ChartScript.

(** ** chart_script_1.py: the hierarchy tree *)

Module ChartScript1.
Import Plotly.

(** A value of the [nodes] dictionary. *)
Record node : Type := Node {
  node_x : PyNum.t;
  node_y : PyNum.t;
  node_level : Z
}.

Definition int (z : Z) : PyNum.t := PyNum.Int z.
(** [m / 10], a literal with one decimal. *)
Definition dec (m : Z) : PyNum.t := PyNum.Float (PyNum.literal m 1).

Definition nodes : PyDict.t node :=
  PyDict.of_items [
    ("AgentSchema", Node (int 0) (int 5) 0);

    ("Core Fields", Node (int (-3)) (int 4) 1);
    ("Configuration", Node (int (-1)) (int 4) 1);
    ("Memory & Msgs", Node (int 1) (int 4) 1);
    ("Tooling", Node (int 3) (int 4) 1);
    ("Metadata", Node (int 5) (int 4) 1);

    ("agent_type", Node (int (-4)) (int 3) 2);
    ("name", Node (PyNum.neg (dec 35)) (int 3) 2);
    ("system", Node (PyNum.neg (dec 25)) (int 3) 2);
    ("version", Node (int (-2)) (int 3) 2);

    ("llm_config", Node (PyNum.neg (dec 13)) (int 3) 2);
    ("embed_config", Node (PyNum.neg (dec 7)) (int 3) 2);

    ("core_memory", Node (dec 5) (int 3) 2);
    ("messages", Node (int 1) (int 3) 2);
    ("msg_indices", Node (dec 15) (int 3) 2);

    ("tools", Node (dec 25) (int 3) 2);
    ("tool_rules", Node (int 3) (int 3) 2);
    ("tool_env_vars", Node (dec 35) (int 3) 2);

    ("tags", Node (dec 45) (int 3) 2);
    ("metadata_", Node (int 5) (int 3) 2);
    ("created_at", Node (dec 55) (int 3) 2);
    ("updated_at", Node (int 6) (int 3) 2)
  ].

Definition connections : list (string * string) := [
  ("AgentSchema", "Core Fields");
  ("AgentSchema", "Configuration");
  ("AgentSchema", "Memory & Msgs");
  ("AgentSchema", "Tooling");
  ("AgentSchema", "Metadata");

  ("Core Fields", "agent_type");
  ("Core Fields", "name");
  ("Core Fields", "system");
  ("Core Fields", "version");

  ("Configuration", "llm_config");
  ("Configuration", "embed_config");

  ("Memory & Msgs", "core_memory");
  ("Memory & Msgs", "messages");
  ("Memory & Msgs", "msg_indices");

  ("Tooling", "tools");
  ("Tooling", "tool_rules");
  ("Tooling", "tool_env_vars");

  ("Metadata", "tags");
  ("Metadata", "metadata_");
  ("Metadata", "created_at");
  ("Metadata", "updated_at")
].

Definition colors : list string := ["#1FB8CD"; "#FFC185"; "#ECEBD5"].

(** [l[i]] on a list, with Python's negative indices. *)
Definition list_getitem {A} (l : list A) (i : Z) : result A :=
  let j := if i <? 0 then i + Z.of_nat (length l) else i in
  if j <? 0 then Raise IndexError
  else match nth_error l (Z.to_nat j) with
       | Some a => Ok a
       | None => Raise IndexError
       end.

(** The body of [for parent, child in connections]; the four
    subscriptions are evaluated in the order of the source. *)
Definition connection_body (nodes : PyDict.t node) (traces : list scatter)
    (pc : string * string) : result (list scatter) :=
  let '(parent, child) := pc in
  px ← PyDict.getitem parent nodes;
  cx ← PyDict.getitem child nodes;
  py ← PyDict.getitem parent nodes;
  cy ← PyDict.getitem child nodes;
  Ok (add_trace traces {|
    x := [node_x px; node_x cx];
    y := [node_y py; node_y cy];
    mode := "lines";
    trace_line := Some (Line "#5D878F" 2);
    trace_marker := None;
    text := None;
    textposition := None;
    textfont := None;
    name := None;
    showlegend := false;
    hoverinfo := "skip";
    hovertext := None
  |}).

(** [[20 if level == 0 else 15 if level == 1 else 12][0]] *)
Definition marker_size (level : Z) : Z :=
  if level =? 0 then 20 else if level =? 1 then 15 else 12.

(** [[14 if level == 0 else 11 if level == 1 else 9][0]] *)
Definition text_size (level : Z) : Z :=
  if level =? 0 then 14 else if level =? 1 then 11 else 9.

(** [[name for name, data in nodes.items() if data['level'] == level]] *)
Definition level_nodes (nodes : PyDict.t node) (level : Z) : list string :=
  map fst (List.filter (fun nd => node_level (snd nd) =? level) nodes).

(** The body of [for level in range(3)]. *)
Definition level_body (nodes : PyDict.t node) (traces : list scatter)
    (level : Z) : result (list scatter) :=
  let names := level_nodes nodes level in
  match names with
  | [] => Ok traces
  | _ :: _ =>
      xs ← map_result (fun name => n ← PyDict.getitem name nodes; Ok (node_x n)) names;
      ys ← map_result (fun name => n ← PyDict.getitem name nodes; Ok (node_y n)) names;
      fill ← list_getitem colors level;
      Ok (add_trace traces {|
        x := xs;
        y := ys;
        mode := "markers+text";
        trace_line := None;
        trace_marker := Some (Marker None (marker_size level) fill (Some (Line "white" 2)));
        text := Some (Texts names);
        textposition := Some "middle center";
        textfont := Some (Font (text_size level) "black");
        name := None;
        showlegend := false;
        hoverinfo := "text";
        hovertext := Some names
      |})
  end.

Definition update_range (r : PyNum.t * PyNum.t) (a : axis) : axis :=
  Axis (showgrid a) (zeroline a) (showticklabels a) (Some r).

(** [update_layout], then [update_xaxes] and [update_yaxes]. *)
Definition tree_layout : layout :=
  let l := {|
    layout_title := "AgentSchema Hierarchical Structure";
    layout_showlegend := Some false;
    xaxis := Axis false false false None;
    yaxis := Axis false false false None;
    plot_bgcolor := "rgba(0,0,0,0)";
    paper_bgcolor := Some "rgba(0,0,0,0)";
    layout_legend := None
  |} in
  let l := Layout (layout_title l) (layout_showlegend l)
             (update_range (int (-5), int 7) (xaxis l)) (yaxis l)
             (plot_bgcolor l) (paper_bgcolor l) (layout_legend l) in
  Layout (layout_title l) (layout_showlegend l)
    (xaxis l) (update_range (dec 25, dec 55) (yaxis l))
    (plot_bgcolor l) (paper_bgcolor l) (layout_legend l).

(** [range(3)] *)
Definition levels : list Z := [0; 1; 2].

(** The whole script on a node dictionary and a connection list. *)
Definition render (nodes : PyDict.t node) (connections : list (string * string))
  : result figure :=
  traces ← for_each (connection_body nodes) connections [];
  traces ← for_each (level_body nodes) levels traces;
  Ok {| fig_data := traces;
        fig_layout := tree_layout;
        image_file := "agent_schema_tree.png" |}.

(** The node names a connection list refers to, in the order the loop
    looks them up. *)
Definition references (cs : list (string * string)) : list string :=
  flat_map (fun pc => [fst pc; snd pc]) cs.

(** Some connection names a node that [nodes] does not have. *)
Definition dangling (nodes : PyDict.t node) (cs : list (string * string))
  : Prop :=
  exists pc, In pc cs
             /\ (~ In (fst pc) (PyDict.keys nodes)
                 \/ ~ In (snd pc) (PyDict.keys nodes)).

(** The names a trace draws as text. *)
Definition drawn_names (tr : scatter) : list string :=
  match text tr with
  | Some (Texts names) => names
  | _ => []
  end.

(** The trace the level loop adds for [level]. *)
Definition level_trace (nodes : PyDict.t node) (level : Z) (tr : scatter)
  : Prop :=
  text tr = Some (Texts (level_nodes nodes level))
  /\ (exists fill, trace_marker tr
                   = Some (Marker None (marker_size level) fill
                             (Some (Line "white" 2))))
  /\ textfont tr = Some (Font (text_size level) "black").

(** What the level loop appends for the levels [ls]: one trace for each
    level that has nodes. *)
Fixpoint level_part (nodes : PyDict.t node) (ls : list Z)
    (part : list scatter) : Prop :=
  match ls with
  | [] => part = []
  | level :: ls' =>
      match level_nodes nodes level with
      | [] => level_part nodes ls' part
      | _ :: _ => exists tr rest, part = tr :: rest
                                  /\ level_trace nodes level tr
                                  /\ level_part nodes ls' rest
      end
  end.

(** The levels of [range(3)] that have at least one node. *)
Definition drawn_levels (nodes : PyDict.t node) : list Z :=
  List.filter (fun level => match level_nodes nodes level with
                            | [] => false
                            | _ :: _ => true
                            end) levels.

(** The items of [nodes] at [level], in the order of the dictionary. *)
Definition level_items (nodes : PyDict.t node) (level : Z)
  : list (string * node) :=
  List.filter (fun nd => node_level (snd nd) =? level) nodes.

(** The marker trace of a level, written from the items of the level
    themselves: the i-th coordinates, text and hover text are those of the
    i-th item. *)
Definition level_marker_trace (nodes : PyDict.t node) (level : Z)
    (fill : string) : scatter := {|
  x := map (fun item => node_x (snd item)) (level_items nodes level);
  y := map (fun item => node_y (snd item)) (level_items nodes level);
  mode := "markers+text";
  trace_line := None;
  trace_marker := Some (Marker None (marker_size level) fill (Some (Line "white" 2)));
  text := Some (Texts (map fst (level_items nodes level)));
  textposition := Some "middle center";
  textfont := Some (Font (text_size level) "black");
  name := None;
  showlegend := false;
  hoverinfo := "text";
  hovertext := Some (map fst (level_items nodes level))
|}.

(** A tree that names a node it does not have. *)
Definition dangling_nodes : PyDict.t node :=
  PyDict.of_items [("root", Node (PyNum.Int 0) (PyNum.Int 5) 0)].

Definition dangling_connections : list (string * string) :=
  [("root", "ghost")].

End ChartScript1.

(** ** script.py: the mapping flattener *)

Module Script.

(** The values of the nested mapping: a description, or a dictionary;
    [isinstance(v, dict)] is the constructor test. *)
Inductive value : Type :=
| Str (s : string)
| Dict (items : list (string * value)).

(** A dictionary appended to [rows]. *)
Record row : Type := Row {
  Category : string;
  Subcategory : string;
  Field : string;
  Description : value
}.

Definition af_to_mastra_mapping : list (string * value) := [
  ("Component Mapping", Dict [
    (".af Core Components", Dict [
      ("agent_type", Str "String identifier (e.g., 'memgpt')");
      ("name", Str "Agent display name");
      ("description", Str "Optional agent description");
      ("system", Str "System prompt/instructions");
      ("llm_config", Str "Model configuration (provider, model name, parameters)");
      ("embedding_config", Str "Embedding model settings");
      ("core_memory", Str "List of memory blocks (personality, user info)");
      ("messages", Str "Complete message history with metadata");
      ("in_context_message_indices", Str "Which messages are in current context");
      ("tools", Str "Tool definitions (schema, source code, metadata)");
      ("tool_rules", Str "Tool execution rules and constraints");
      ("tool_exec_environment_variables", Str "Environment variables for tools");
      ("tags", Str "Agent tags/labels");
      ("metadata_", Str "Additional metadata");
      ("version", Str "Schema version");
      ("created_at", Str "Creation timestamp");
      ("updated_at", Str "Last update timestamp")
    ]);
    ("Mastra Agent Equivalent", Dict [
      ("name", Str "Agent.name");
      ("description", Str "Agent.description");
      ("instructions", Str "Agent.instructions (from .af system field)");
      ("model", Str "Agent.model (derived from llm_config)");
      ("tools", Str "Agent.tools (converted from .af tools)");
      ("memory", Str "Agent.memory (converted from core_memory + messages)");
      ("workflows", Str "Not directly supported in .af");
      ("evals", Str "Not directly supported in .af");
      ("voice", Str "Not directly supported in .af")
    ])
  ]);
  ("Key Differences", Dict [
    ("Memory Management", Dict [
      ("af_approach", Str "Explicit core_memory blocks + message history");
      ("mastra_approach", Str "Memory class with storage adapters")
    ]);
    ("Tool Definitions", Dict [
      ("af_approach", Str "Complete tool source code + JSON schema");
      ("mastra_approach", Str "TypeScript functions with type definitions")
    ]);
    ("Context Management", Dict [
      ("af_approach", Str "in_context_message_indices array");
      ("mastra_approach", Str "Handled by memory system automatically")
    ])
  ])
].

(** [rows.append(r)] *)
Definition append (rows : list row) (r : row) : list row := rows ++ [r].

(** The body of [for key, value in details.items()]. *)
Definition field_body (category subcategory : string) (rows : list row)
    (kv : string * value) : list row :=
  append rows (Row category subcategory (fst kv) (snd kv)).

(** The body of [for subcategory, details in items.items()]. *)
Definition subcategory_body (category : string) (rows : list row)
    (sd : string * value) : list row :=
  match snd sd with
  | Dict details => fold_left (field_body category (fst sd)) details rows
  | details => append rows (Row category (fst sd) "" details)
  end.

(** The body of [for category, items in af_to_mastra_mapping.items()]. *)
Definition category_body (rows : list row) (ci : string * value) : list row :=
  match snd ci with
  | Dict items => fold_left (subcategory_body (fst ci)) items rows
  | _ => rows
  end.

(** "Flatten the mapping for CSV output": [rows] after the loops. *)
Definition flatten (mapping : list (string * value)) : list row :=
  fold_left category_body mapping [].

(** [len([r for r in rows if r['Category'] == c])] *)
Definition count_category (c : string) (rows : list row) : nat :=
  length (List.filter (fun r => String.eqb (Category r) c) rows).

(** The table handed to [to_csv(..., index=False)]: the header and one
    record per row. *)
Definition header : list string :=
  ["Category"; "Subcategory"; "Field"; "Description"].

Definition show_nat (n : nat) : string :=
  NilEmpty.string_of_uint (Nat.to_uint n).

(** The lines printed by the script. *)
Definition summary (rows : list row) : list string := [
  "Component mapping analysis complete:";
  ("Total mappable components: " ++ show_nat (count_category "Component Mapping" rows))%string;
  ("Key differences identified: " ++ show_nat (count_category "Key Differences" rows))%string;
  String (ascii_of_nat 10) "CSV file 'af_mastra_mapping.csv' created with detailed mapping"
].

(** The script: the data rows written to the CSV file and the lines
    printed. *)
Definition run (mapping : list (string * value)) : list row * list string :=
  let rows := flatten mapping in
  (rows, summary rows).

(** The order the specification asks for, written as it is worded: the
    top-level keys in their given order, under each the nested keys in
    their given order, one record per field (or one record with an empty
    field for a subcategory that is a bare description). *)
Definition rows_of_subcategory (category : string) (sd : string * value)
  : list row :=
  match snd sd with
  | Dict details =>
      map (fun kv => Row category (fst sd) (fst kv) (snd kv)) details
  | details => [Row category (fst sd) "" details]
  end.

Definition rows_of_category (ci : string * value) : list row :=
  match snd ci with
  | Dict items => flat_map (rows_of_subcategory (fst ci)) items
  | _ => []
  end.

Definition declaration_order (mapping : list (string * value)) : list row :=
  flat_map rows_of_category mapping.

End Script.

(** ** Hashed containers: what differs from one run to the next

    The scripts read no clock, no random source, no environment and no
    input.  What does change from one run of the interpreter to the next is
    the hash of strings, which CPython salts with a seed drawn at start-up:
    it decides where a key sits in the hash table of a dictionary or of a
    set, and so the order in which a set is iterated.  The modules below
    embed the two chart scripts a second time, over containers that go
    through the hash of the run. *)

Module PyHash.

(** [hash(s)] on strings, in one process. *)
Definition hash_fn : Type := string -> N.

(** An entry of a dictionary: the hash stored with the key. *)
Record entry (V : Type) : Type := Entry {
  entry_hash : N;
  entry_key : string;
  entry_value : V
}.
Arguments Entry {V} _ _ _.
Arguments entry_hash {V} _.
Arguments entry_key {V} _.
Arguments entry_value {V} _.

(** A dictionary: the entries in insertion order, which is the order of
    iteration; a lookup goes to the entries with the hash of the key and
    compares the keys. *)
Definition dict (V : Type) : Type := list (entry V).

Definition matches {V} (hash : hash_fn) (k : string) (e : entry V) : bool :=
  N.eqb (entry_hash e) (hash k) && String.eqb (entry_key e) k.

Definition get {V} (hash : hash_fn) (k : string) (d : dict V) : option V :=
  option_map entry_value (List.find (matches hash k) d).

(** [d[k] = v] *)
Fixpoint set {V} (hash : hash_fn) (k : string) (v : V) (d : dict V) : dict V :=
  match d with
  | [] => [Entry (hash k) k v]
  | e :: d' =>
      if matches hash k e
      then Entry (entry_hash e) (entry_key e) v :: d'
      else e :: set hash k v d'
  end.

Definition store {V} (hash : hash_fn) (d : dict V) (kv : string * V) : dict V :=
  set hash (fst kv) (snd kv) d.

(** A dictionary display or comprehension. *)
Definition of_items {V} (hash : hash_fn) (l : list (string * V)) : dict V :=
  fold_left (store hash) l [].

(** [d[k]] *)
Definition getitem {V} (hash : hash_fn) (k : string) (d : dict V) : result V :=
  match get hash k d with
  | Some v => Ok v
  | None => Raise (KeyError k)
  end.

(** [d.items()] *)
Definition items {V} (d : dict V) : list (string * V) :=
  map (fun e => (entry_key e, entry_value e)) d.

(** A set of strings: the elements with their hashes, laid out by hash
    value (the size of the table and the probing are left out), so that the
    layout, and with it the order of iteration, is that of the run. *)
Definition str_set : Type := list (N * string).

(** [s in t] *)
Definition contains (hash : hash_fn) (s : string) (t : str_set) : bool :=
  existsb (fun e => N.eqb (fst e) (hash s) && String.eqb (snd e) s) t.

Fixpoint place (e : N * string) (t : str_set) : str_set :=
  match t with
  | [] => [e]
  | e' :: t' =>
      if N.ltb (fst e) (fst e') then e :: e' :: t' else e' :: place e t'
  end.

(** [t.add(s)] *)
Definition add (hash : hash_fn) (s : string) (t : str_set) : str_set :=
  if contains hash s t then t else place (hash s, s) t.

(** [for s in t] *)
Definition iteration_order (t : str_set) : list string := map snd t.

(** The entries carry the hashes of their keys in the run. *)
Definition well_hashed {V} (hash : hash_fn) (d : dict V) : Prop :=
  Forall (fun e => entry_hash e = hash (entry_key e)) d.

(** Two hash functions of two runs, for the examples: one that sends
    every string to the same slot, one that goes by the length. *)
Definition hash_constant : hash_fn := fun _ => 0%N.
Definition hash_length : hash_fn := fun s => N.of_nat (String.length s).

End PyHash.

(** ** chart_script.py, in a run with the string hash [hash] *)

Module ChartScriptRun.
Import Plotly.

Section Run.
Variable hash : PyHash.hash_fn.

Definition node_positions (g : ChartScript.graph)
  : PyHash.dict (PyNum.t * PyNum.t) :=
  PyHash.of_items hash
    (map (fun n => (ChartScript.node_id n,
                    (ChartScript.node_x n, ChartScript.node_y n)))
         (ChartScript.nodes g)).

Definition type_colors : PyHash.dict string :=
  PyHash.of_items hash
    [("input", "#1FB8CD"); ("process", "#FFC185"); ("output", "#5D878F")].

(** The body of [for edge in data["edges"]]. *)
Definition edge_body (positions : PyHash.dict (PyNum.t * PyNum.t))
    (traces : list scatter) (e : ChartScript.edge) : result (list scatter) :=
  from_pos ← PyHash.getitem hash (ChartScript.edge_from e) positions;
  to_pos ← PyHash.getitem hash (ChartScript.edge_to e) positions;
  let traces := add_trace traces (ChartScript.line_trace from_pos to_pos) in
  arrow_x ← ChartScript.arrow_coord (fst from_pos) (fst to_pos);
  arrow_y ← ChartScript.arrow_coord (snd from_pos) (snd to_pos);
  Ok (add_trace traces (ChartScript.arrow_trace arrow_x arrow_y)).

(** The body of [for node in data["nodes"]]. *)
Definition node_body (traces : list scatter) (n : ChartScript.node)
  : result (list scatter) :=
  fill ← PyHash.getitem hash (ChartScript.node_type n) type_colors;
  Ok (add_trace traces (ChartScript.node_trace n fill)).

(** The body of [for trace in fig.data]; [seen_types] is a set. *)
Definition legend_body (seen_types : PyHash.str_set) (trace : scatter)
  : PyHash.str_set * scatter :=
  match name trace with
  | Some n =>
      if PyStr.truthy n then
        if PyHash.contains hash n seen_types
        then (seen_types, set_showlegend false trace)
        else (PyHash.add hash n seen_types, trace)
      else (seen_types, trace)
  | None => (seen_types, trace)
  end.

Fixpoint remove_duplicate_legend (seen_types : PyHash.str_set)
    (traces : list scatter) : PyHash.str_set * list scatter :=
  match traces with
  | [] => (seen_types, [])
  | trace :: rest =>
      let '(seen, trace') := legend_body seen_types trace in
      let '(final, rest') := remove_duplicate_legend seen rest in
      (final, trace' :: rest')
  end.

(** The whole script in this run: the set [seen_types] as the legend
    loop leaves it, and the figure given to [write_image]. *)
Definition run (g : ChartScript.graph) : result (PyHash.str_set * figure) :=
  let positions := node_positions g in
  traces ← for_each (edge_body positions) (ChartScript.edges g) [];
  traces ← for_each node_body (ChartScript.nodes g) traces;
  let '(seen_types, traces) := remove_duplicate_legend [] traces in
  Ok (seen_types,
      {| fig_data := traces;
         fig_layout := ChartScript.flow_layout;
         image_file := "mastra_af_architecture.png" |}).

Definition render (g : ChartScript.graph) : result figure :=
  state ← run g; Ok (snd state).

End Run.

End ChartScriptRun.

(** ** chart_script_1.py, in a run with the string hash [hash] *)

Module ChartScript1Run.
Import Plotly.

Section Run.
Variable hash : PyHash.hash_fn.

(** The body of [for parent, child in connections]. *)
Definition connection_body (nodes : PyHash.dict ChartScript1.node)
    (traces : list scatter) (pc : string * string) : result (list scatter) :=
  let '(parent, child) := pc in
  px ← PyHash.getitem hash parent nodes;
  cx ← PyHash.getitem hash child nodes;
  py ← PyHash.getitem hash parent nodes;
  cy ← PyHash.getitem hash child nodes;
  Ok (add_trace traces {|
    x := [ChartScript1.node_x px; ChartScript1.node_x cx];
    y := [ChartScript1.node_y py; ChartScript1.node_y cy];
    mode := "lines";
    trace_line := Some (Line "#5D878F" 2);
    trace_marker := None;
    text := None;
    textposition := None;
    textfont := None;
    name := None;
    showlegend := false;
    hoverinfo := "skip";
    hovertext := None
  |}).

(** [[name for name, data in nodes.items() if data['level'] == level]] *)
Definition level_nodes (nodes : PyHash.dict ChartScript1.node) (level : Z)
  : list string :=
  map fst (List.filter (fun nd => ChartScript1.node_level (snd nd) =? level)
                       (PyHash.items nodes)).

(** The body of [for level in range(3)]. *)
Definition level_body (nodes : PyHash.dict ChartScript1.node)
    (traces : list scatter) (level : Z) : result (list scatter) :=
  let names := level_nodes nodes level in
  match names with
  | [] => Ok traces
  | _ :: _ =>
      xs ← map_result (fun name => n ← PyHash.getitem hash name nodes;
                                   Ok (ChartScript1.node_x n)) names;
      ys ← map_result (fun name => n ← PyHash.getitem hash name nodes;
                                   Ok (ChartScript1.node_y n)) names;
      fill ← ChartScript1.list_getitem ChartScript1.colors level;
      Ok (add_trace traces {|
        x := xs;
        y := ys;
        mode := "markers+text";
        trace_line := None;
        trace_marker := Some (Marker None (ChartScript1.marker_size level) fill
                                (Some (Line "white" 2)));
        text := Some (Texts names);
        textposition := Some "middle center";
        textfont := Some (Font (ChartScript1.text_size level) "black");
        name := None;
        showlegend := false;
        hoverinfo := "text";
        hovertext := Some names
      |})
  end.

(** The whole script in this run, on the items of the dictionary display
    [nodes = {...}] and on the connection list. *)
Definition render (node_items : list (string * ChartScript1.node))
    (connections : list (string * string)) : result figure :=
  let nodes := PyHash.of_items hash node_items in
  traces ← for_each (connection_body nodes) connections [];
  traces ← for_each (level_body nodes) ChartScript1.levels traces;
  Ok {| fig_data := traces;
        fig_layout := ChartScript1.tree_layout;
        image_file := "agent_schema_tree.png" |}.

End Run.

End ChartScript1Run.

(** * Properties *)

(** ** The model on small inputs *)

Section Examples.

(** [0.9] is the double 0x3FECCCCCCCCCCCCD. *)
Example literal_0_9 :
  PyNum.literal 9 1 = S754_finite false 8106479329266893 (-53).
Proof. reflexivity. Qed.

Example literal_2_5 :
  PyNum.value (PyNum.Float (PyNum.literal 25 1)) = Some (5629499534213120 # 2251799813685248)%Q.
Proof. reflexivity. Qed.

(** [float(2**1024)] raises; the largest double converts. *)
Example float_of_int_range :
  PyNum.float_of_int (2 ^ 1024) = Raise OverflowError
  /\ PyNum.float_of_int (2 ^ 1024 - 2 ^ 971)
     = Ok (S754_finite false 9007199254740991 971).
Proof. split; reflexivity. Qed.

(** [50 + 0.9 * (200 - 50)] is [185.0]; [0 + 0.9 * (1 - 0)] is the double
    [0.9], which is not the rational 9/10. *)
Example arrow_coord_values :
  (ChartScript.arrow_coord (PyNum.Int 50) (PyNum.Int 200)
     ≫= fun a => Ok (PyNum.value a)) = Ok (Some (6509108836433920 # 35184372088832)%Q)
  /\ (6509108836433920 # 35184372088832 == 185)%Q
  /\ ChartScript.arrow_coord (PyNum.Int 0) (PyNum.Int 1)
     = Ok (PyNum.Float (PyNum.literal 9 1))
  /\ ~ (8106479329266893 # 9007199254740992 == 9 # 10)%Q.
Proof. repeat split; try reflexivity. intros H. discriminate H. Qed.

Example title_values :
  PyStr.title "process" = "Process"
  /\ PyStr.title "hello world" = "Hello World"
  /\ PyStr.title "my_type" = "My_Type"
  /\ PyStr.title "ABC" = "Abc"
  /\ PyStr.title "" = "".
Proof. repeat split. Qed.

(** A key stored twice keeps its first place and its last value. *)
Example of_items_twice :
  PyDict.of_items [("a", 1); ("b", 2); ("a", 3)] = [("a", 3); ("b", 2)].
Proof. reflexivity. Qed.

(** A top-level value that is not a dictionary gives no row. *)
Example flatten_irregular :
  Script.flatten [("A", Script.Str "text");
                  ("B", Script.Dict [("s", Script.Str "d")])]
  = [Script.Row "B" "s" "" (Script.Str "d")].
Proof. reflexivity. Qed.

End Examples.

(** ** The mapping flattener *)

Section Flattener.
Import Script.

Lemma field_loop category subcategory details rows :
  fold_left (field_body category subcategory) details rows
  = rows ++ map (fun kv => Row category subcategory (fst kv) (snd kv)) details.
Proof.
  revert rows; induction details as [|kv details IH]; intros rows; simpl.
  - now rewrite app_nil_r.
  - rewrite IH. unfold field_body, append. now rewrite <- app_assoc.
Qed.

Lemma subcategory_body_rows category rows sd :
  subcategory_body category rows sd = rows ++ rows_of_subcategory category sd.
Proof.
  unfold subcategory_body, rows_of_subcategory.
  destruct (snd sd) as [s|details]; [reflexivity | apply field_loop].
Qed.

Lemma subcategory_loop category items rows :
  fold_left (subcategory_body category) items rows
  = rows ++ flat_map (rows_of_subcategory category) items.
Proof.
  revert rows; induction items as [|sd items IH]; intros rows; simpl.
  - now rewrite app_nil_r.
  - now rewrite IH, subcategory_body_rows, <- app_assoc.
Qed.

Lemma category_body_rows rows ci :
  category_body rows ci = rows ++ rows_of_category ci.
Proof.
  unfold category_body, rows_of_category.
  destruct (snd ci) as [s|items]; [now rewrite app_nil_r | apply subcategory_loop].
Qed.

Lemma category_loop mapping rows :
  fold_left category_body mapping rows = rows ++ declaration_order mapping.
Proof.
  revert rows; induction mapping as [|ci mapping IH]; intros rows; simpl.
  - now rewrite app_nil_r.
  - now rewrite IH, category_body_rows, <- app_assoc.
Qed.

Lemma flatten_declaration_order mapping :
  flatten mapping = declaration_order mapping.
Proof. unfold flatten. now rewrite category_loop. Qed.

Lemma flatten_app m1 m2 : flatten (m1 ++ m2) = flatten m1 ++ flatten m2.
Proof.
  rewrite !flatten_declaration_order. unfold declaration_order.
  apply flat_map_app.
Qed.

Lemma flatten_category_in mapping r :
  In r (flatten mapping) -> In (Category r) (map fst mapping).
Proof.
  rewrite flatten_declaration_order. unfold declaration_order.
  rewrite in_flat_map. intros [[c v] [Hci Hr]].
  apply in_map_iff. exists (c, v). split; [|exact Hci].
  unfold rows_of_category in Hr; simpl in Hr.
  destruct v as [s|items]; [destruct Hr|].
  apply in_flat_map in Hr as [[sub d] [_ Hr]].
  unfold rows_of_subcategory in Hr; simpl in Hr.
  destruct d as [s|details].
  - destruct Hr as [<-|[]]. reflexivity.
  - apply in_map_iff in Hr as [kv [<- _]]. reflexivity.
Qed.

Lemma count_category_app c rows1 rows2 :
  count_category c (rows1 ++ rows2)
  = (count_category c rows1 + count_category c rows2)%nat.
Proof. unfold count_category. now rewrite List.filter_app, length_app. Qed.

Lemma count_two_categories c1 c2 rows :
  c1 <> c2 ->
  (forall r, In r rows -> Category r = c1 \/ Category r = c2) ->
  (count_category c1 rows + count_category c2 rows)%nat = length rows.
Proof.
  intros Hne. induction rows as [|r rows IH]; intros Hall; [reflexivity|].
  change (r :: rows) with ([r] ++ rows).
  rewrite !count_category_app, length_app.
  specialize (IH (fun r' Hr' => Hall r' (or_intror Hr'))).
  assert (count_category c1 [r] + count_category c2 [r] = 1)%nat as H1.
  { unfold count_category; simpl.
    destruct (Hall r (or_introl eq_refl)) as [Hc|Hc]; rewrite Hc.
    - rewrite String.eqb_refl.
      destruct (String.eqb_spec c1 c2); [contradiction|reflexivity].
    - rewrite String.eqb_refl.
      destruct (String.eqb_spec c2 c1); [congruence|reflexivity]. }
  simpl length. lia.
Qed.

(** C3: the flattener's rows follow the declaration order of the input:
    the top-level keys in their given order and, under each, the nested
    keys in their given order; flattening
    [{"A": {"B": {"f1": "d1", "f2": "d2"}}}] gives the row
    [("A","B","f1","d1")] and then the row [("A","B","f2","d2")]. *)
Theorem flatten_preserves_declaration_order :
  (forall mapping, flatten mapping = declaration_order mapping)
  /\ (forall m1 m2, flatten (m1 ++ m2) = flatten m1 ++ flatten m2)
  /\ flatten [("A", Dict [("B", Dict [("f1", Str "d1"); ("f2", Str "d2")])])]
     = [Row "A" "B" "f1" (Str "d1"); Row "A" "B" "f2" (Str "d2")].
Proof.
  split; [exact flatten_declaration_order|].
  split; [exact flatten_app | reflexivity].
Qed.

(** C5: a subcategory whose value is a bare description gives exactly one
    row, with an empty Field, in the subcategory's place; flattening
    [{"A": {"B": "plain description"}}] gives exactly
    [("A","B","","plain description")]. *)
Theorem flatten_bare_description :
  (forall category subcategory description before after,
      flatten [(category, Dict (before ++ (subcategory, Str description) :: after))]
      = flatten [(category, Dict before)]
        ++ [Row category subcategory "" (Str description)]
        ++ flatten [(category, Dict after)])
  /\ flatten [("A", Dict [("B", Str "plain description")])]
     = [Row "A" "B" "" (Str "plain description")].
Proof.
  split; [|reflexivity].
  intros category subcategory description before after.
  rewrite !flatten_declaration_order. unfold declaration_order; simpl.
  rewrite !app_nil_r. unfold rows_of_category; simpl.
  now rewrite flat_map_app.
Qed.

(** C10: when the top-level keys of the mapping are "Component Mapping"
    and "Key Differences", as in the script, every row has one of the two
    as its Category, so the two counts the script prints add up to the
    number of rows written. *)
Theorem summary_counts_partition_rows mapping :
  (forall k, In k (map fst mapping) ->
             k = "Component Mapping" \/ k = "Key Differences") ->
  let rows := fst (run mapping) in
  (forall r, In r rows ->
             Category r = "Component Mapping" \/ Category r = "Key Differences")
  /\ (count_category "Component Mapping" rows
      + count_category "Key Differences" rows)%nat = length rows.
Proof.
  intros Hkeys rows.
  assert (forall r, In r rows ->
            Category r = "Component Mapping" \/ Category r = "Key Differences")
    as Hrows.
  { intros r Hr. apply Hkeys. now apply flatten_category_in. }
  split; [exact Hrows|].
  apply count_two_categories; [discriminate | exact Hrows].
Qed.

(** The script's own mapping: 26 and 6 rows, 32 in all. *)
Lemma summary_counts_partition_rows_witness :
  let rows := fst (run af_to_mastra_mapping) in
  (forall r, In r rows ->
             Category r = "Component Mapping" \/ Category r = "Key Differences")
  /\ (count_category "Component Mapping" rows
      + count_category "Key Differences" rows)%nat = length rows.
Proof.
  apply (summary_counts_partition_rows af_to_mastra_mapping).
  simpl. intros k [<-|[<-|[]]]; [left|right]; reflexivity.
Defined.

Lemma summary_of_script :
  snd (run af_to_mastra_mapping)
  = ["Component mapping analysis complete:";
     "Total mappable components: 26";
     "Key differences identified: 6";
     String (ascii_of_nat 10)
       "CSV file 'af_mastra_mapping.csv' created with detailed mapping"]
  /\ length (fst (run af_to_mastra_mapping)) = 32%nat.
Proof. split; reflexivity. Qed.

End Flattener.

(** ** Results, loops and dictionaries *)

Arguments PyNum.binop : simpl never.
Arguments PyNum.add : simpl never.
Arguments PyNum.sub : simpl never.
Arguments PyNum.mul : simpl never.
Arguments PyNum.literal : simpl never.
Arguments PyNum.float_of_int : simpl never.
Arguments ChartScript.arrow_coord : simpl never.

Lemma bind_Raise_inv {A B} (c : result A) (k : A -> result B) e :
  c ≫= k = Raise e -> c = Raise e \/ exists a, c = Ok a /\ k a = Raise e.
Proof.
  destruct c as [a|e']; simpl; intros H; [right; now exists a | left; congruence].
Qed.

Lemma bind_Ok_inv {A B} (c : result A) (k : A -> result B) b :
  c ≫= k = Ok b -> exists a, c = Ok a /\ k a = Ok b.
Proof. destruct c as [a|e]; simpl; intros H; [now exists a | discriminate H]. Qed.

Ltac bind_inv H :=
  repeat match type of H with
  | (mbind _ ?c = Ok _) =>
      let E := fresh "E" in
      let a := fresh "a" in
      destruct c as [a|] eqn:E; simpl in H; [|discriminate H]
  end.

Section Dictionaries.
Context {V : Type}.
Implicit Types (d : PyDict.t V) (k : string) (v : V).

Lemma get_None k d : PyDict.get k d = None <-> ~ In k (PyDict.keys d).
Proof.
  induction d as [|[k' v'] d IH]; simpl; [tauto|].
  destruct (String.eqb_spec k k') as [->|Hne].
  - split; [discriminate | intros H; exfalso; apply H; now left].
  - rewrite IH. split; [intros H [?|?]; [congruence | tauto] | tauto].
Qed.

Lemma get_Some_In k v d : PyDict.get k d = Some v -> In (k, v) d.
Proof.
  induction d as [|[k' v'] d IH]; simpl; [discriminate|].
  destruct (String.eqb_spec k k') as [->|Hne].
  - intros [= ->]. now left.
  - intros H. right. now apply IH.
Qed.

Lemma In_get_Some k v d :
  List.NoDup (PyDict.keys d) -> In (k, v) d -> PyDict.get k d = Some v.
Proof.
  induction d as [|[k' v'] d IH]; simpl; [tauto|].
  intros Hnd Hin. apply NoDup_cons_iff in Hnd as [Hk' Hnd].
  destruct Hin as [[= -> ->]|Hin].
  - now rewrite String.eqb_refl.
  - destruct (String.eqb_spec k k') as [->|Hne]; [|now apply IH].
    exfalso. apply Hk'. apply in_map_iff. now exists (k', v).
Qed.

Lemma keys_set k v d :
  PyDict.keys (PyDict.set k v d)
  = match PyDict.get k d with
    | Some _ => PyDict.keys d
    | None => PyDict.keys d ++ [k]
    end.
Proof.
  induction d as [|[k' v'] d IH]; simpl; [reflexivity|].
  destruct (String.eqb_spec k k') as [->|Hne]; simpl; [reflexivity|].
  rewrite IH. now destruct (PyDict.get k d).
Qed.

Lemma NoDup_keys_set k v d :
  List.NoDup (PyDict.keys d) -> List.NoDup (PyDict.keys (PyDict.set k v d)).
Proof.
  intros Hnd. rewrite keys_set.
  destruct (PyDict.get k d) eqn:E; [exact Hnd|].
  apply get_None in E.
  apply NoDup_ListNoDup, NoDup_app.
  repeat split; [now apply NoDup_ListNoDup | | apply NoDup_singleton].
  intros k' Hk' Hin. apply list_elem_of_In in Hk', Hin.
  destruct Hin as [<-|[]]. contradiction.
Qed.

Lemma In_keys_set k k' v d :
  In k' (PyDict.keys (PyDict.set k v d)) <-> k' = k \/ In k' (PyDict.keys d).
Proof.
  rewrite keys_set. destruct (PyDict.get k d) eqn:E.
  - split; [tauto|]. intros [->|H]; [|exact H].
    apply get_Some_In in E. apply in_map_iff. now exists (k, v0).
  - rewrite in_app_iff. simpl. split; [intros [?|[?|[]]]|intros [?|?]]; auto.
Qed.

Lemma NoDup_keys_fold l d :
  List.NoDup (PyDict.keys d) -> List.NoDup (PyDict.keys (fold_left PyDict.store l d)).
Proof.
  revert d; induction l as [|kv l IH]; intros d Hnd; simpl; [exact Hnd|].
  apply IH. now apply NoDup_keys_set.
Qed.

Lemma In_keys_fold k l d :
  In k (PyDict.keys (fold_left PyDict.store l d))
  <-> In k (map fst l) \/ In k (PyDict.keys d).
Proof.
  revert d; induction l as [|kv l IH]; intros d; simpl; [tauto|].
  rewrite IH. unfold PyDict.store. rewrite In_keys_set. intuition congruence.
Qed.

Lemma NoDup_keys_of_items (l : list (string * V)) : List.NoDup (PyDict.keys (PyDict.of_items l)).
Proof. apply (NoDup_keys_fold l (@nil (string * V))). apply List.NoDup_nil. Qed.

Lemma In_keys_of_items k (l : list (string * V)) :
  In k (PyDict.keys (PyDict.of_items l)) <-> In k (map fst l).
Proof.
  unfold PyDict.of_items. rewrite In_keys_fold. simpl. tauto.
Qed.

Lemma In_set k v d kv :
  In kv (PyDict.set k v d) -> kv = (k, v) \/ In kv d.
Proof.
  induction d as [|[k' v'] d IH]; simpl; [intuition auto|].
  destruct (String.eqb_spec k k') as [->|Hne]; simpl; [intuition auto|].
  intros [H|H]; [tauto|]. apply IH in H. tauto.
Qed.

Lemma In_fold l d kv : In kv (fold_left PyDict.store l d) -> In kv l \/ In kv d.
Proof.
  revert d; induction l as [|kv' l IH]; intros d; simpl; [tauto|].
  intros H. apply IH in H as [H|H]; [now left; right|].
  unfold PyDict.store in H. apply In_set in H as [->|H]; [|now right].
  left; left. now destruct kv'.
Qed.

Lemma In_of_items (l : list (string * V)) kv :
  In kv (PyDict.of_items l) -> In kv l.
Proof. intros H. apply (In_fold l []) in H as [H|[]]. exact H. Qed.

Lemma getitem_Ok k d v : PyDict.getitem k d = Ok v <-> PyDict.get k d = Some v.
Proof.
  unfold PyDict.getitem. destruct (PyDict.get k d); split; congruence.
Qed.

End Dictionaries.

(** ** The flow diagram *)

Section FlowDiagram.
Import Plotly ChartScript.

Implicit Types (positions : PyDict.t (PyNum.t * PyNum.t)).

Lemma edge_body_Ok positions traces e traces' :
  edge_body positions traces e = Ok traces' ->
  exists line arrow,
    edge_traces positions e line arrow /\ traces' = traces ++ [line; arrow].
Proof.
  unfold edge_body. intros H. bind_inv H.
  injection H as <-.
  apply getitem_Ok in E, E0.
  eexists _, _. split.
  - exists a, a0, a1, a2. repeat split; eassumption.
  - unfold add_trace. now rewrite <- app_assoc.
Qed.

Lemma edge_loop_Ok positions es traces traces' :
  for_each (edge_body positions) es traces = Ok traces' ->
  exists part, traces' = traces ++ part /\ edge_part positions es part.
Proof.
  revert traces; induction es as [|e es IH]; intros traces H; simpl in H.
  - injection H as <-. exists []. rewrite app_nil_r. split; [reflexivity|].
    repeat split; [constructor|]. intros i e Hi. now destruct i.
  - bind_inv H. apply edge_body_Ok in E as (line & arrow & Htr & ->).
    apply IH in H as (part & -> & Hlen & Hall & Hpart).
    exists ([line; arrow] ++ part). split; [now rewrite <- app_assoc|].
    repeat split.
    + simpl. rewrite Hlen. simpl. lia.
    + destruct Htr as (? & ? & ? & ? & _ & _ & _ & _ & -> & ->).
      repeat constructor; assumption.
    + intros [|i] e' Hi; simpl in Hi.
      * injection Hi as <-. exists line, arrow. now repeat split.
      * destruct (Hpart i e' Hi) as (l' & a' & Htr' & Hl & Ha).
        exists l', a'. split; [exact Htr'|].
        replace (2 * S i)%nat with (S (S (2 * i))) by lia.
        replace (S (S (2 * i)) + 1)%nat with (S (S (2 * i + 1))) by lia.
        now split.
Qed.

Lemma node_loop_Ok ns traces traces' :
  for_each node_body ns traces = Ok traces' ->
  exists part, traces' = traces ++ part /\ node_part ns part.
Proof.
  revert traces; induction ns as [|n ns IH]; intros traces H; simpl in H.
  - injection H as <-. exists []. rewrite app_nil_r. split; [reflexivity|constructor].
  - bind_inv H. unfold node_body in E. bind_inv E. injection E as <-.
    apply getitem_Ok in E0.
    apply IH in H as (part & -> & Hpart).
    exists (node_trace n a0 :: part). split.
    + unfold add_trace. now rewrite <- app_assoc.
    + constructor; [now exists a0 | exact Hpart].
Qed.

Lemma legend_body_unnamed seen tr :
  name tr = None -> legend_body seen tr = (seen, tr).
Proof. unfold legend_body. now intros ->. Qed.

Lemma remove_duplicate_legend_unnamed seen part traces :
  Forall (fun tr => name tr = None /\ showlegend tr = false) part ->
  remove_duplicate_legend seen (part ++ traces)
  = part ++ remove_duplicate_legend seen traces.
Proof.
  induction 1 as [|tr part [Hn _] _ IH]; simpl; [reflexivity|].
  rewrite (legend_body_unnamed _ _ Hn). now rewrite IH.
Qed.

(** The figure of a script that ran to its end. *)
Lemma render_Ok g fig :
  render g = Ok fig ->
  exists eparts nparts,
    edge_part (node_positions g) (edges g) eparts
    /\ node_part (nodes g) nparts
    /\ fig_data fig = eparts ++ remove_duplicate_legend ∅ nparts
    /\ fig_layout fig = flow_layout.
Proof.
  unfold render. intros H. bind_inv H. injection H as <-.
  apply edge_loop_Ok in E as (eparts & -> & He).
  apply node_loop_Ok in E0 as (nparts & -> & Hn).
  exists eparts, nparts. simpl.
  split; [exact He|]. split; [exact Hn|]. split; [|reflexivity].
  apply remove_duplicate_legend_unnamed. apply He.
Qed.

Lemma edge_traces_in_figure g fig i e :
  render g = Ok fig ->
  edges g !! i = Some e ->
  exists line arrow,
    edge_traces (node_positions g) e line arrow
    /\ fig_data fig !! (2 * i)%nat = Some line
    /\ fig_data fig !! (2 * i + 1)%nat = Some arrow.
Proof.
  intros Hr Hi.
  apply render_Ok in Hr as (eparts & nparts & (Hlen & _ & He) & _ & -> & _).
  destruct (He i e Hi) as (line & arrow & Htr & Hl & Ha).
  exists line, arrow. split; [exact Htr|].
  apply lookup_lt_Some in Hi.
  rewrite !lookup_app_l by lia. now split.
Qed.

Lemma node_of_position g k pos :
  PyDict.get k (node_positions g) = Some pos ->
  exists n, In n (nodes g) /\ node_id n = k /\ pos = (node_x n, node_y n).
Proof.
  intros H. apply get_Some_In, In_of_items, in_map_iff in H as (n & [= <- <-] & Hn).
  now exists n.
Qed.

Lemma arrow_in_figure g fig i e :
  render g = Ok fig ->
  edges g !! i = Some e ->
  exists n1 n2 arrow_x arrow_y,
    In n1 (nodes g) /\ node_id n1 = edge_from e
    /\ PyDict.get (edge_from e) (node_positions g) = Some (node_x n1, node_y n1)
    /\ In n2 (nodes g) /\ node_id n2 = edge_to e
    /\ PyDict.get (edge_to e) (node_positions g) = Some (node_x n2, node_y n2)
    /\ arrow_coord (node_x n1) (node_x n2) = Ok arrow_x
    /\ arrow_coord (node_y n1) (node_y n2) = Ok arrow_y
    /\ fig_data fig !! (2 * i)%nat
       = Some (line_trace (node_x n1, node_y n1) (node_x n2, node_y n2))
    /\ fig_data fig !! (2 * i + 1)%nat = Some (arrow_trace arrow_x arrow_y).
Proof.
  intros Hr Hi.
  destruct (edge_traces_in_figure g fig i e Hr Hi)
    as (line & arrow & (p1 & p2 & ax & ay & H1 & H2 & Hx & Hy & -> & ->) & Hl & Ha).
  destruct (node_of_position g _ _ H1) as (n1 & Hn1 & Hid1 & ->).
  destruct (node_of_position g _ _ H2) as (n2 & Hn2 & Hid2 & ->).
  exists n1, n2, ax, ay. simpl in Hx, Hy. now repeat split.
Qed.

(** C1: the arrowhead of every edge is the marker trace that follows the
    edge's segment, at [p1 + 0.9 * (p2 - p1)] on both axes, where [p1] and
    [p2] are the positions of the edge's source and destination nodes and
    the expression is evaluated as the script evaluates it, in binary64;
    on the diagram of the script that value is exactly the rational
    [p1 + 9/10 * (p2 - p1)], for all eleven edges. *)
Theorem arrowhead_position :
  (forall g fig i e,
      render g = Ok fig ->
      edges g !! i = Some e ->
      exists n1 n2 arrow_x arrow_y,
        In n1 (nodes g) /\ node_id n1 = edge_from e
        /\ PyDict.get (edge_from e) (node_positions g) = Some (node_x n1, node_y n1)
        /\ In n2 (nodes g) /\ node_id n2 = edge_to e
        /\ PyDict.get (edge_to e) (node_positions g) = Some (node_x n2, node_y n2)
        /\ (d ← PyNum.sub (node_x n2) (node_x n1);
            p ← PyNum.mul (PyNum.Float (PyNum.literal 9 1)) d;
            PyNum.add (node_x n1) p) = Ok arrow_x
        /\ (d ← PyNum.sub (node_y n2) (node_y n1);
            p ← PyNum.mul (PyNum.Float (PyNum.literal 9 1)) d;
            PyNum.add (node_y n1) p) = Ok arrow_y
        /\ exists tr, fig_data fig !! (2 * i + 1)%nat = Some tr
             /\ mode tr = "markers" /\ x tr = [arrow_x] /\ y tr = [arrow_y])
  /\ (forall i e,
        edges data !! i = Some e ->
        match render data with
        | Ok fig => arrow_at_exact_position data fig i e
        | Raise _ => False
        end).
Proof.
  split.
  - intros g fig i e Hr Hi.
    destruct (arrow_in_figure g fig i e Hr Hi)
      as (n1 & n2 & ax & ay & ? & ? & ? & ? & ? & ? & Hx & Hy & _ & Ha).
    exists n1, n2, ax, ay. repeat split; try assumption.
    + eexists. split; [exact Ha|]. now repeat split.
  - intros i e Hi.
    do 11 (destruct i as [|i];
           [injection Hi as <-; vm_compute; split; reflexivity|]).
    discriminate Hi.
Qed.

(** The first edge of the script's diagram, from (50,200) to (200,200):
    its arrowhead is the second trace, at (185,200). *)
Lemma arrowhead_position_witness :
  (exists fig tr,
      render data = Ok fig
      /\ fig_data fig !! 1%nat = Some tr
      /\ x tr = [PyNum.Float (S754_finite false 6509108836433920 (-45))]
      /\ y tr = [PyNum.Float (S754_finite false 7036874417766400 (-45))])
  /\ match render data with
     | Ok fig => arrow_at_exact_position data fig 0
                   (Edge "af_file" "validator" "Parse JSON")
     | Raise _ => False
     end.
Proof.
  split.
  - destruct (render data) as [fig|err] eqn:Hr; [|vm_compute in Hr; discriminate Hr].
    destruct (proj1 arrowhead_position data fig 0%nat
                (Edge "af_file" "validator" "Parse JSON") Hr eq_refl)
      as (n1 & n2 & ax & ay & _ & _ & H1 & _ & _ & H2 & Hx & Hy
          & tr & Htr & _ & Hxs & Hys).
    assert (Some (PyNum.Int 50, PyNum.Int 200) = Some (node_x n1, node_y n1))
      as E1 by (rewrite <- H1; vm_compute; reflexivity).
    assert (Some (PyNum.Int 200, PyNum.Int 200) = Some (node_x n2, node_y n2))
      as E2 by (rewrite <- H2; vm_compute; reflexivity).
    injection E1 as Hx1 Hy1. injection E2 as Hx2 Hy2.
    rewrite <- Hx1, <- Hx2 in Hx. rewrite <- Hy1, <- Hy2 in Hy.
    vm_compute in Hx, Hy.
    injection Hx as <-. injection Hy as <-.
    exists fig, tr. split; [reflexivity|].
    split; [exact Htr|]. split; [exact Hxs | exact Hys].
  - exact (proj2 arrowhead_position 0%nat
             (Edge "af_file" "validator" "Parse JSON") eq_refl).
Defined.

(** C7, as the code has it: the arrowhead of every edge is one fixed
    marker, the symbol triangle-right of size 8, whatever the direction of
    the edge; its tip points along the x axis, so it leans toward the
    destination exactly when the destination lies to the right of the
    source. *)
Theorem arrowhead_symbol_fixed :
  (forall g fig i e,
      render g = Ok fig ->
      edges g !! i = Some e ->
      exists tr,
        fig_data fig !! (2 * i + 1)%nat = Some tr
        /\ trace_marker tr = Some (Marker (Some "triangle-right") 8 "#13343B" None))
  /\ (forall from_pos to_pos x1 y1 x2 y2,
        PyNum.value (fst from_pos) = Some x1 ->
        PyNum.value (snd from_pos) = Some y1 ->
        PyNum.value (fst to_pos) = Some x2 ->
        PyNum.value (snd to_pos) = Some y2 ->
        oriented_toward (Some "triangle-right") from_pos to_pos <-> (x1 < x2)%Q).
Proof.
  split.
  - intros g fig i e Hr Hi.
    destruct (arrow_in_figure g fig i e Hr Hi)
      as (n1 & n2 & ax & ay & _ & _ & _ & _ & _ & _ & _ & _ & _ & Ha).
    eexists. split; [exact Ha|reflexivity].
  - intros from_pos to_pos x1 y1 x2 y2 H1 H2 H3 H4.
    unfold oriented_toward. rewrite H1, H2, H3, H4.
    change (symbol_direction "triangle-right") with (Some (1, 0)%Q).
    cbv beta iota. split; intros H; lra.
Qed.

Lemma arrowhead_symbol_fixed_witness :
  (exists fig tr,
      render data = Ok fig
      /\ fig_data fig !! 19%nat = Some tr
      /\ trace_marker tr = Some (Marker (Some "triangle-right") 8 "#13343B" None))
  /\ (oriented_toward (Some "triangle-right")
        (PyNum.Int 800, PyNum.Int 200) (PyNum.Int 650, PyNum.Int 350)
      <-> (800 < 650)%Q).
Proof.
  split.
  - destruct (render data) as [fig|err] eqn:Hr; [|vm_compute in Hr; discriminate Hr].
    destruct (proj1 arrowhead_symbol_fixed data fig 9%nat
                (Edge "mastra_agent" "export_serializer" "Export Request")
                Hr eq_refl) as (tr & Htr & Hm).
    exists fig, tr. split; [reflexivity|]. split; [exact Htr | exact Hm].
  - exact (proj2 arrowhead_symbol_fixed
             (PyNum.Int 800, PyNum.Int 200) (PyNum.Int 650, PyNum.Int 350)
             800%Q 200%Q 650%Q 350%Q eq_refl eq_refl eq_refl eq_refl).
Defined.

(** C7 as stated fails on the script's own diagram: the edge from
    mastra_agent (800,200) to export_serializer (650,350) runs to the left,
    and its arrowhead is the same triangle-right as on every other edge. *)
Lemma arrowhead_orientation_counterexample : ~ arrowheads_oriented data.
Proof.
  intros H.
  destruct (render data) as [fig|err] eqn:Hr; [|vm_compute in Hr; discriminate Hr].
  destruct (H fig 9%nat (Edge "mastra_agent" "export_serializer" "Export Request")
              Hr eq_refl) as (p1 & p2 & tr & m & H1 & H2 & Htr & Hm & Ho).
  destruct (arrow_in_figure data fig 9%nat _ Hr eq_refl)
    as (n1 & n2 & ax & ay & _ & _ & _ & _ & _ & _ & _ & _ & _ & Ha).
  rewrite Ha in Htr. injection Htr as <-. injection Hm as <-.
  vm_compute in H1, H2. injection H1 as <-. injection H2 as <-.
  vm_compute in Ho. discriminate Ho.
Qed.

End FlowDiagram.

(** ** References to nodes that do not exist *)

Section MissingNodes.
Import Plotly.

Lemma first_missing_Some {V} (d : PyDict.t V) refs k :
  PyDict.first_missing d refs = Some k ->
  In k refs /\ ~ In k (PyDict.keys d).
Proof.
  unfold PyDict.first_missing. intros H. apply find_some in H as [Hin Hk].
  split; [exact Hin|]. apply get_None.
  now destruct (PyDict.get k d).
Qed.

Lemma first_missing_exists {V} (d : PyDict.t V) refs k :
  In k refs -> ~ In k (PyDict.keys d) ->
  exists k', PyDict.first_missing d refs = Some k'.
Proof.
  intros Hin Hk. unfold PyDict.first_missing.
  destruct (List.find _ refs) as [k'|] eqn:E; [now exists k'|].
  apply (find_none _ _ E) in Hin. apply get_None in Hk.
  rewrite Hk in Hin. discriminate Hin.
Qed.

Lemma float_of_int_error z e :
  PyNum.float_of_int z = Raise e -> e = OverflowError.
Proof.
  unfold PyNum.float_of_int.
  destruct (binary_normalize _ _ _ _ _); congruence.
Qed.

Lemma to_float_error a e : PyNum.to_float a = Raise e -> e = OverflowError.
Proof. destruct a; simpl; [apply float_of_int_error | discriminate]. Qed.

Lemma binop_error fz ff a b e :
  PyNum.binop fz ff a b = Raise e -> e = OverflowError.
Proof.
  unfold PyNum.binop.
  assert ((x ← PyNum.to_float a; y ← PyNum.to_float b; Ok (PyNum.Float (ff x y)))
          = Raise e -> e = OverflowError) as H.
  { destruct (PyNum.to_float a) eqn:Ea; simpl.
    - destruct (PyNum.to_float b) eqn:Eb; simpl; [discriminate|].
      intros [= <-]. now apply to_float_error in Eb.
    - intros [= <-]. now apply to_float_error in Ea. }
  destruct a, b; try exact H. discriminate.
Qed.

Lemma arrow_coord_error a b e :
  ChartScript.arrow_coord a b = Raise e -> e = OverflowError.
Proof.
  unfold ChartScript.arrow_coord. intros H.
  apply bind_Raise_inv in H as [H|(d & _ & H)]; [now apply binop_error in H|].
  apply bind_Raise_inv in H as [H|(p & _ & H)]; now apply binop_error in H.
Qed.

(** The edge loop on a graph with a dangling edge: the lookup of the
    first missing identifier raises, unless the arithmetic of an earlier
    edge has overflowed already. *)
Lemma edge_loop_missing positions es traces k :
  PyDict.first_missing positions (ChartScript.references es) = Some k ->
  for_each (ChartScript.edge_body positions) es traces = Raise (KeyError k)
  \/ for_each (ChartScript.edge_body positions) es traces = Raise OverflowError.
Proof.
  revert traces; induction es as [|e es IH]; intros traces H; [discriminate H|].
  unfold PyDict.first_missing in H. simpl in H. simpl for_each.
  unfold ChartScript.edge_body, PyDict.getitem.
  destruct (PyDict.get (ChartScript.edge_from e) positions) as [p1|];
    [|injection H as <-; now left].
  destruct (PyDict.get (ChartScript.edge_to e) positions) as [p2|];
    [|injection H as <-; now left].
  simpl.
  destruct (ChartScript.arrow_coord (fst p1) (fst p2)) as [ax|ex] eqn:Ex; simpl;
    [|apply arrow_coord_error in Ex as ->; now right].
  destruct (ChartScript.arrow_coord (snd p1) (snd p2)) as [ay|ey] eqn:Ey; simpl;
    [|apply arrow_coord_error in Ey as ->; now right].
  apply IH. exact H.
Qed.

(** The connection loop on a tree with a dangling connection. *)
Lemma connection_loop_missing nodes cs traces k :
  PyDict.first_missing nodes (ChartScript1.references cs) = Some k ->
  for_each (ChartScript1.connection_body nodes) cs traces = Raise (KeyError k).
Proof.
  revert traces; induction cs as [|[parent child] cs IH]; intros traces H;
    [discriminate H|].
  unfold PyDict.first_missing in H. simpl in H. simpl for_each.
  unfold ChartScript1.connection_body, PyDict.getitem.
  destruct (PyDict.get parent nodes) as [p|]; [|now injection H as <-].
  destruct (PyDict.get child nodes) as [c|]; [|now injection H as <-].
  simpl. apply IH. exact H.
Qed.

Lemma keys_node_positions g k :
  In k (PyDict.keys (ChartScript.node_positions g))
  <-> In k (map ChartScript.node_id (ChartScript.nodes g)).
Proof.
  unfold ChartScript.node_positions. rewrite In_keys_of_items.
  now rewrite map_map.
Qed.

(** C2, as the code has it: when an edge or a connection names a node
    that does not exist, neither script produces a figure, and no edge is
    dropped; what stops the script is the KeyError of the dictionary
    lookup itself, carrying the first missing name in the order of the
    lookups (in the flow diagram an OverflowError of the arrowhead
    arithmetic of an earlier edge can come first). *)
Theorem dangling_reference_raises_KeyError :
  (forall g,
      ChartScript.dangling g ->
      exists k,
        PyDict.first_missing (ChartScript.node_positions g)
          (ChartScript.references (ChartScript.edges g)) = Some k
        /\ In k (ChartScript.references (ChartScript.edges g))
        /\ ~ In k (map ChartScript.node_id (ChartScript.nodes g))
        /\ (ChartScript.render g = Raise (KeyError k)
            \/ ChartScript.render g = Raise OverflowError))
  /\ (forall nodes connections,
        ChartScript1.dangling nodes connections ->
        exists k,
          PyDict.first_missing nodes (ChartScript1.references connections) = Some k
          /\ In k (ChartScript1.references connections)
          /\ ~ In k (PyDict.keys nodes)
          /\ ChartScript1.render nodes connections = Raise (KeyError k)).
Proof.
  split.
  - intros g (e & He & Hmiss).
    assert (exists k, In k (ChartScript.references (ChartScript.edges g))
                      /\ ~ In k (PyDict.keys (ChartScript.node_positions g)))
      as (k0 & Hin0 & Hk0).
    { destruct Hmiss as [Hm|Hm];
        [exists (ChartScript.edge_from e) | exists (ChartScript.edge_to e)];
        (split; [apply in_flat_map; exists e; simpl; tauto
                | now rewrite keys_node_positions]). }
    destruct (first_missing_exists _ _ _ Hin0 Hk0) as (k & Hk).
    exists k. split; [exact Hk|].
    destruct (first_missing_Some _ _ _ Hk) as [Hin Hnot].
    split; [exact Hin|]. split; [now rewrite <- keys_node_positions|].
    unfold ChartScript.render.
    destruct (edge_loop_missing _ _ [] _ Hk) as [-> | ->]; [now left | now right].
  - intros nodes connections ([parent child] & Hpc & Hmiss). simpl in Hmiss.
    assert (exists k, In k (ChartScript1.references connections)
                      /\ ~ In k (PyDict.keys nodes)) as (k0 & Hin0 & Hk0).
    { destruct Hmiss as [Hm|Hm]; [exists parent | exists child];
        (split; [apply in_flat_map; exists (parent, child); simpl; tauto
                | exact Hm]). }
    destruct (first_missing_exists _ _ _ Hin0 Hk0) as (k & Hk).
    exists k. split; [exact Hk|].
    destruct (first_missing_Some _ _ _ Hk) as [Hin Hnot].
    split; [exact Hin|]. split; [exact Hnot|].
    unfold ChartScript1.render.
    now rewrite (connection_loop_missing _ _ [] _ Hk).
Qed.

Lemma dangling_reference_raises_KeyError_witness :
  ChartScript.render ChartScript.dangling_graph = Raise (KeyError "ghost")
  /\ ChartScript1.render ChartScript1.dangling_nodes
       ChartScript1.dangling_connections = Raise (KeyError "ghost").
Proof.
  split.
  - assert (ChartScript.dangling ChartScript.dangling_graph) as Hd.
    { exists (ChartScript.Edge "a" "ghost" ""). split; [now left|].
      right. simpl. intros [H|[]]. discriminate H. }
    destruct (proj1 dangling_reference_raises_KeyError _ Hd)
      as (k & Hk & _ & _ & [Hr|Hr]).
    + vm_compute in Hk. injection Hk as <-. exact Hr.
    + vm_compute in Hr. discriminate Hr.
  - assert (ChartScript1.dangling ChartScript1.dangling_nodes
              ChartScript1.dangling_connections) as Hd.
    { exists ("root", "ghost"). split; [now left|].
      right. simpl. intros [H|[]]. discriminate H. }
    destruct (proj2 dangling_reference_raises_KeyError _ _ Hd)
      as (k & Hk & _ & _ & Hr).
    vm_compute in Hk. injection Hk as <-. exact Hr.
Defined.

(** C2 as stated fails: on a graph and on a tree that name the missing
    node "ghost", what the scripts raise is the lookup failure itself. *)
Lemma dangling_reference_counterexample :
  ~ (forall g, ChartScript.dangling g ->
               exists e, ChartScript.render g = Raise e
                         /\ is_lookup_failure e = false)
  /\ ~ (forall nodes connections,
          ChartScript1.dangling nodes connections ->
          exists e, ChartScript1.render nodes connections = Raise e
                    /\ is_lookup_failure e = false).
Proof.
  split.
  - intros H. destruct (H ChartScript.dangling_graph) as (e & He & Hf).
    + exists (ChartScript.Edge "a" "ghost" ""). split; [now left|].
      right. simpl. intros [E|[]]. discriminate E.
    + vm_compute in He. injection He as <-. discriminate Hf.
  - intros H.
    destruct (H ChartScript1.dangling_nodes ChartScript1.dangling_connections)
      as (e & He & Hf).
    + exists ("root", "ghost"). split; [now left|].
      right. simpl. intros [E|[]]. discriminate E.
    + vm_compute in He. injection He as <-. discriminate Hf.
Qed.

End MissingNodes.

(** ** Axis ranges and determinism *)

Section Figures.
Import Plotly.

(** C8: the fixed axis ranges contain every node of the scripts' data
    with a margin: each node of the flow diagram lies strictly inside
    [-20,870] x [50,400], each node of the hierarchy tree strictly inside
    [-5,7] x [2.5,5.5]. *)
Theorem axis_ranges_contain_nodes :
  (exists fig xr yr,
      ChartScript.render ChartScript.data = Ok fig
      /\ range (xaxis (fig_layout fig)) = Some xr
      /\ range (yaxis (fig_layout fig)) = Some yr
      /\ xr = (PyNum.Int (-20), PyNum.Int 870)
      /\ yr = (PyNum.Int 50, PyNum.Int 400)
      /\ Forall (fun n => strictly_inside (ChartScript.node_x n) xr
                          /\ strictly_inside (ChartScript.node_y n) yr)
                (ChartScript.nodes ChartScript.data))
  /\ (exists fig xr yr lo hi,
        ChartScript1.render ChartScript1.nodes ChartScript1.connections = Ok fig
        /\ range (xaxis (fig_layout fig)) = Some xr
        /\ range (yaxis (fig_layout fig)) = Some yr
        /\ xr = (PyNum.Int (-5), PyNum.Int 7)
        /\ PyNum.value (fst yr) = Some lo /\ (lo == 5 # 2)%Q
        /\ PyNum.value (snd yr) = Some hi /\ (hi == 11 # 2)%Q
        /\ Forall (fun kv => strictly_inside (ChartScript1.node_x (snd kv)) xr
                             /\ strictly_inside (ChartScript1.node_y (snd kv)) yr)
                  ChartScript1.nodes).
Proof.
  split.
  - eexists _, _, _. split; [vm_compute; reflexivity|].
    do 4 (split; [reflexivity|]).
    repeat (apply List.Forall_cons; [split; vm_compute; split; reflexivity|]).
    apply List.Forall_nil.
  - eexists _, _, _, _, _. split; [vm_compute; reflexivity|].
    do 3 (split; [reflexivity|]).
    split; [vm_compute; reflexivity|]. split; [reflexivity|].
    split; [vm_compute; reflexivity|]. split; [reflexivity|].
    repeat (apply List.Forall_cons; [split; vm_compute; split; reflexivity|]).
    apply List.Forall_nil.
Qed.

End Figures.

(** ** The legend of the flow diagram *)

Section Legend.
Import Plotly ChartScript.

Lemma truthy_title s : PyStr.truthy (PyStr.title s) = PyStr.truthy s.
Proof. now destruct s. Qed.

Lemma type_colors_truthy ty fill :
  PyDict.get ty type_colors = Some fill -> PyStr.truthy ty = true.
Proof. destruct ty; [discriminate | reflexivity]. Qed.

Lemma name_set_showlegend b tr : name (set_showlegend b tr) = name tr.
Proof. reflexivity. Qed.

(** One step of the legend loop: the name is kept, and the name is seen
    afterwards when it is a non-empty one. *)
Lemma legend_body_spec seen tr seen' tr' :
  legend_body seen tr = (seen', tr') ->
  name tr' = name tr
  /\ (forall L, L ∈ seen' <-> L ∈ seen \/ (name tr = Some L /\ PyStr.truthy L = true))
  /\ (forall L, name tr = Some L -> PyStr.truthy L = true ->
                if bool_decide (L ∈ seen) then showlegend tr' = false else tr' = tr).
Proof.
  unfold legend_body. destruct (name tr) as [n|] eqn:En.
  - destruct (PyStr.truthy n) eqn:Et.
    + destruct (bool_decide (n ∈ seen)) eqn:Es; intros [= <- <-].
      * apply bool_decide_eq_true in Es.
        split; [now rewrite name_set_showlegend|]. split.
        -- intros L. split; [tauto|]. intros [H|[[= <-] _]]; assumption.
        -- intros L [= <-] _. now rewrite bool_decide_eq_true_2.
      * apply bool_decide_eq_false in Es.
        split; [exact En|]. split.
        -- intros L. rewrite elem_of_union, elem_of_singleton.
           split; [intros [->|H]; [right; now split | now left]
                  |intros [H|[[= <-] _]]; [now right | now left]].
        -- intros L [= <-] _. now rewrite bool_decide_eq_false_2.
    + intros [= <- <-]. split; [exact En|]. split.
      * intros L. split; [tauto|]. intros [H|[[= <-] Ht]]; [exact H | congruence].
      * intros L [= <-] Ht. congruence.
  - intros [= <- <-]. split; [exact En|]. split.
    + intros L. split; [tauto|]. intros [H|[[=] _]]. exact H.
    + intros L [=].
Qed.

Lemma remove_duplicate_legend_length seen traces :
  length (remove_duplicate_legend seen traces) = length traces.
Proof.
  revert seen; induction traces as [|tr traces IH]; intros seen; simpl; [reflexivity|].
  destruct (legend_body seen tr) as [seen' tr']. simpl. now rewrite IH.
Qed.

Lemma remove_duplicate_legend_names seen traces tr' :
  In tr' (remove_duplicate_legend seen traces) ->
  exists tr, In tr traces /\ name tr' = name tr.
Proof.
  revert seen; induction traces as [|tr traces IH]; intros seen; simpl; [tauto|].
  destruct (legend_body seen tr) as [seen1 tr1] eqn:E.
  apply legend_body_spec in E as (Hn & _ & _).
  intros [<-|H].
  - exists tr. split; [now left | exact Hn].
  - apply IH in H as (tr0 & Hin & H0). exists tr0. split; [now right | exact H0].
Qed.

(** A name already seen never gets a legend entry again. *)
Lemma remove_duplicate_legend_seen seen traces L tr' :
  L ∈ seen -> PyStr.truthy L = true ->
  In tr' (remove_duplicate_legend seen traces) ->
  name tr' = Some L -> showlegend tr' = false.
Proof.
  revert seen; induction traces as [|tr traces IH]; intros seen HL Ht; simpl; [tauto|].
  destruct (legend_body seen tr) as [seen1 tr1] eqn:E.
  apply legend_body_spec in E as (Hn & Hseen & Hshow).
  intros [<-|H] Hname.
  - rewrite Hn in Hname. specialize (Hshow L Hname Ht).
    now rewrite bool_decide_eq_true_2 in Hshow.
  - apply (IH seen1); try assumption. apply Hseen. now left.
Qed.

(** The first trace with a name not seen yet is left as it is. *)
Lemma remove_duplicate_legend_first seen before tr after L :
  name tr = Some L -> PyStr.truthy L = true -> L ∉ seen ->
  (forall tr0, In tr0 before -> name tr0 <> Some L) ->
  exists seen',
    L ∈ seen'
    /\ remove_duplicate_legend seen (before ++ tr :: after)
       = remove_duplicate_legend seen before
         ++ tr :: remove_duplicate_legend seen' after.
Proof.
  intros Hname Ht.
  revert seen; induction before as [|tr0 before IH]; intros seen HL Hbefore; simpl.
  - destruct (legend_body seen tr) as [seen1 tr1] eqn:E.
    apply legend_body_spec in E as (_ & Hseen & Hshow).
    specialize (Hshow L Hname Ht). rewrite bool_decide_eq_false_2 in Hshow by exact HL.
    subst tr1. exists seen1. split; [|reflexivity].
    apply Hseen. right. now split.
  - destruct (legend_body seen tr0) as [seen1 tr1] eqn:E.
    apply legend_body_spec in E as (_ & Hseen & _).
    destruct (IH seen1) as (seen' & HL' & ->).
    + rewrite Hseen. intros [H|[H _]]; [contradiction|].
      apply (Hbefore tr0); [now left | exact H].
    + intros tr2 H2. apply Hbefore. now right.
    + exists seen'. split; [exact HL' | reflexivity].
Qed.

Lemma filter_none {A} (f : A -> bool) l :
  (forall a, In a l -> f a = false) -> List.filter f l = [].
Proof.
  induction l as [|a l IH]; intros H; simpl; [reflexivity|].
  rewrite (H a) by now left. apply IH. intros b Hb. apply H. now right.
Qed.

Lemma first_split {A} (f : A -> bool) l a :
  In a l -> f a = true ->
  exists l1 b l2, l = l1 ++ b :: l2 /\ f b = true
                  /\ forall c, In c l1 -> f c = false.
Proof.
  induction l as [|b l IH]; intros Hin Hf; [destruct Hin|].
  destruct (f b) eqn:Eb.
  - exists [], b, l. repeat split; [exact Eb | intros c []].
  - destruct Hin as [->|Hin]; [congruence|].
    destruct (IH Hin Hf) as (l1 & b' & l2 & -> & Hb' & Hl1).
    exists (b :: l1), b', l2. repeat split; [exact Hb'|].
    intros c [<-|Hc]; [exact Eb | now apply Hl1].
Qed.

Lemma node_part_names ns part tr :
  node_part ns part -> In tr part ->
  exists n, In n ns /\ name tr = Some (PyStr.title (node_type n))
            /\ showlegend tr = true
            /\ PyStr.truthy (PyStr.title (node_type n)) = true.
Proof.
  induction 1 as [|n tr0 ns part (fill & Hfill & ->) _ IH]; [intros []|].
  intros [<-|Hin].
  - exists n. split; [now left|]. repeat split.
    rewrite truthy_title. now apply type_colors_truthy in Hfill.
  - destruct (IH Hin) as (n' & Hn' & H'). exists n'. split; [now right | exact H'].
Qed.

Lemma legend_entries_named_one L before tr after :
  (forall tr', In tr' before -> name tr' <> Some L) ->
  name tr = Some L -> showlegend tr = true ->
  (forall tr', In tr' after -> name tr' = Some L -> showlegend tr' = false) ->
  legend_entries_named L (before ++ tr :: after) = [tr].
Proof.
  intros Hbefore Hname Hshow Hafter. unfold legend_entries_named.
  rewrite List.filter_app. simpl.
  rewrite Hname, Hshow, String.eqb_refl. simpl.
  rewrite !filter_none; [reflexivity| |].
  - intros tr' Hin. destruct (name tr') as [n|] eqn:En; [|apply andb_false_r].
    destruct (String.eqb_spec n L) as [->|Hne]; [|apply andb_false_r].
    now rewrite (Hafter tr' Hin En).
  - intros tr' Hin. destruct (name tr') as [n|] eqn:En; [|apply andb_false_r].
    destruct (String.eqb_spec n L) as [->|Hne]; [|apply andb_false_r].
    now destruct (Hbefore tr' Hin).
Qed.

(** C4: when the script runs to its end, every category tag [t] carried
    by at least one node has exactly one legend entry, named with the
    title-cased tag; it is the entry of the first node (in the order of
    the data) whose tag has that name, and every later trace of that name
    is taken out of the legend. *)
Theorem legend_entry_per_category g fig t :
  render g = Ok fig ->
  (exists n, In n (nodes g) /\ node_type n = t) ->
  length (legend_entries_named (PyStr.title t) (fig_data fig)) = 1%nat
  /\ exists ns1 n ns2 before tr after fill,
       nodes g = ns1 ++ n :: ns2
       /\ (forall n', In n' ns1 -> PyStr.title (node_type n') <> PyStr.title t)
       /\ PyStr.title (node_type n) = PyStr.title t
       /\ fig_data fig = before ++ tr :: after
       /\ length before = (2 * length (edges g) + length ns1)%nat
       /\ tr = node_trace n fill
       /\ (forall tr', In tr' before -> name tr' <> Some (PyStr.title t))
       /\ (forall tr', In tr' after -> name tr' = Some (PyStr.title t) ->
                       showlegend tr' = false).
Proof.
  intros Hr (n0 & Hn0 & <-).
  apply render_Ok in Hr as (eparts & nparts & (Hlen & Hall & _) & Hnp & Hdata & _).
  set (L := PyStr.title (node_type n0)).
  destruct (first_split (fun n => String.eqb (PyStr.title (node_type n)) L)
              (nodes g) n0 Hn0 (String.eqb_refl _))
    as (ns1 & n & ns2 & Hsplit & Hn & Hns1).
  apply String.eqb_eq in Hn.
  rewrite Hsplit in Hnp. unfold node_part in Hnp.
  apply List.Forall2_app_inv_l in Hnp as (p1 & p2' & Hp1 & Hp2' & ->).
  inversion Hp2' as [|n' tr ns2' p2 (fill & Hfill & Htr) Hp2]; subst n' ns2' p2'.
  assert (name tr = Some L) as Hname by (subst tr; simpl; now rewrite Hn).
  assert (PyStr.truthy L = true) as Ht.
  { rewrite <- Hn, truthy_title. now apply type_colors_truthy in Hfill. }
  assert (forall tr0, In tr0 p1 -> name tr0 <> Some L) as Hp1names.
  { intros tr0 Hin. destruct (node_part_names ns1 p1 tr0 Hp1 Hin) as (n1 & Hn1 & -> & _).
    intros [= E]. apply Hns1 in Hn1. rewrite E, String.eqb_refl in Hn1.
    discriminate Hn1. }
  destruct (remove_duplicate_legend_first ∅ p1 tr p2 L Hname Ht
              (not_elem_of_empty L) Hp1names) as (seen' & HL' & Hrdl).
  rewrite Hrdl, app_assoc in Hdata.
  assert (forall tr', In tr' (eparts ++ remove_duplicate_legend ∅ p1) ->
                      name tr' <> Some L) as Hbefore.
  { intros tr' Hin. apply in_app_or in Hin as [Hin|Hin].
    - rewrite List.Forall_forall in Hall. destruct (Hall tr' Hin) as [-> _].
      discriminate.
    - apply remove_duplicate_legend_names in Hin as (tr0 & Hin0 & ->).
      now apply Hp1names. }
  assert (forall tr', In tr' (remove_duplicate_legend seen' p2) ->
                      name tr' = Some L -> showlegend tr' = false) as Hafter.
  { intros tr' Hin. now apply (remove_duplicate_legend_seen seen' p2). }
  split.
  - rewrite Hdata.
    rewrite (legend_entries_named_one L _ tr _ Hbefore Hname); [reflexivity| |exact Hafter].
    now subst tr.
  - exists ns1, n, ns2, (eparts ++ remove_duplicate_legend ∅ p1), tr,
      (remove_duplicate_legend seen' p2), fill.
    split; [exact Hsplit|]. split.
    { intros n' Hn'. apply Hns1 in Hn'. intros E. fold L in E.
      rewrite E, String.eqb_refl in Hn'. discriminate Hn'. }
    split; [exact Hn|]. split; [exact Hdata|]. split.
    { rewrite length_app, remove_duplicate_legend_length, Hlen.
      apply List.Forall2_length in Hp1. now rewrite Hp1. }
    split; [exact Htr|]. split; [exact Hbefore | exact Hafter].
Qed.

(** The seven nodes of category "process" of the script's diagram share
    the one legend entry "Process"; the legend is Input, Process,
    Output. *)
Lemma legend_entry_per_category_witness :
  exists fig,
    render data = Ok fig
    /\ PyStr.title "process" = "Process"
    /\ length (List.filter (fun n => String.eqb (node_type n) "process") (nodes data))
       = 7%nat
    /\ length (legend_entries_named "Process" (fig_data fig)) = 1%nat
    /\ legend_entries (fig_data fig) = [Some "Input"; Some "Process"; Some "Output"].
Proof.
  destruct (render data) as [fig|err] eqn:Hr; [|vm_compute in Hr; discriminate Hr].
  exists fig. split; [reflexivity|]. split; [reflexivity|]. split; [reflexivity|].
  split.
  - apply (legend_entry_per_category data fig "process" Hr).
    exists (Node "parser" "AF Parser" "process" (PyNum.Int 350) (PyNum.Int 200)).
    split; [|reflexivity]. simpl. tauto.
  - vm_compute in Hr. injection Hr as <-. reflexivity.
Defined.

End Legend.

(** ** The levels of the hierarchy tree *)

Section Levels.
Import Plotly ChartScript1.

Implicit Types (nodes : PyDict.t node).

Lemma connection_loop_Ok nodes cs traces traces' :
  for_each (connection_body nodes) cs traces = Ok traces' ->
  exists part, traces' = traces ++ part
               /\ Forall (fun tr => drawn_names tr = []) part.
Proof.
  revert traces; induction cs as [|[parent child] cs IH]; intros traces H;
    simpl in H.
  - injection H as <-. exists []. now rewrite app_nil_r.
  - bind_inv H. unfold connection_body in E. bind_inv E. injection E as <-.
    apply IH in H as (part & -> & Hpart).
    eexists (_ :: part). split.
    + unfold add_trace. rewrite <- app_assoc. reflexivity.
    + constructor; [reflexivity | exact Hpart].
Qed.

Lemma level_body_Ok nodes traces level traces' :
  level_body nodes traces level = Ok traces' ->
  match level_nodes nodes level with
  | [] => traces' = traces
  | _ :: _ => exists tr, traces' = traces ++ [tr] /\ level_trace nodes level tr
  end.
Proof.
  unfold level_body. destruct (level_nodes nodes level) as [|name names] eqn:El.
  - now intros [= <-].
  - intros H. bind_inv H. injection H as <-.
    eexists. split; [reflexivity|].
    unfold level_trace. rewrite El.
    split; [reflexivity|]. split; [|reflexivity]. now exists a1.
Qed.

Lemma level_loop_Ok nodes ls traces traces' :
  for_each (level_body nodes) ls traces = Ok traces' ->
  exists part, traces' = traces ++ part /\ level_part nodes ls part.
Proof.
  revert traces; induction ls as [|level ls IH]; intros traces H; simpl in H.
  - injection H as <-. exists []. now rewrite app_nil_r.
  - bind_inv H. apply level_body_Ok in E.
    apply IH in H as (part & -> & Hpart). simpl.
    destruct (level_nodes nodes level) as [|name names].
    + subst a. now exists part.
    + destruct E as (tr & -> & Htr).
      exists (tr :: part). split; [now rewrite <- app_assoc|].
      now exists tr, part.
Qed.

Lemma In_level_nodes nodes level name :
  In name (level_nodes nodes level)
  <-> exists nd, In (name, nd) nodes /\ node_level nd = level.
Proof.
  unfold level_nodes. rewrite in_map_iff. split.
  - intros ([name' nd] & <- & H). apply filter_In in H as [Hin Hl].
    exists nd. split; [exact Hin | now apply Z.eqb_eq].
  - intros (nd & Hin & Hl). exists (name, nd). split; [reflexivity|].
    apply filter_In. split; [exact Hin | now apply Z.eqb_eq].
Qed.

Lemma level_nodes_level nodes level name nd :
  List.NoDup (PyDict.keys nodes) ->
  PyDict.get name nodes = Some nd ->
  In name (level_nodes nodes level) <-> node_level nd = level.
Proof.
  intros Hnd Hget. rewrite In_level_nodes. split.
  - intros (nd' & Hin & Hl). apply (In_get_Some _ _ _ Hnd) in Hin. congruence.
  - intros Hl. exists nd. split; [now apply get_Some_In | exact Hl].
Qed.

Lemma drawn_names_level_trace nodes level tr :
  level_trace nodes level tr -> drawn_names tr = level_nodes nodes level.
Proof. intros (Ht & _). unfold drawn_names. now rewrite Ht. Qed.

(** In what the level loop appends, a node is drawn by the trace of its
    own level and by no other. *)
Lemma level_part_split nodes name nd :
  List.NoDup (PyDict.keys nodes) ->
  PyDict.get name nodes = Some nd ->
  forall ls part,
    level_part nodes ls part ->
    (~ In (node_level nd) ls ->
     forall tr, In tr part -> ~ In name (drawn_names tr))
    /\ (In (node_level nd) ls -> List.NoDup ls ->
        exists before tr after,
          part = before ++ tr :: after
          /\ level_trace nodes (node_level nd) tr
          /\ forall tr', In tr' (before ++ after) -> ~ In name (drawn_names tr')).
Proof.
  intros Hnd Hget.
  induction ls as [|level ls IH]; intros part Hpart; simpl in Hpart.
  - subst part. split; [intros _ tr [] | intros []].
  - pose proof (level_nodes_level nodes level name nd Hnd Hget) as Hlevel.
    destruct (level_nodes nodes level) as [|name0 names] eqn:El.
    + (* no node at this level, so not the level of [name] *)
      assert (node_level nd <> level) as Hne.
      { intros E. apply Hlevel in E. destruct E. }
      destruct (IH part Hpart) as [IHout IHin]. split.
      * intros Hnot. apply IHout. intros H. apply Hnot. now right.
      * intros [E|Hin] Hls; [congruence|].
        apply IHin; [exact Hin | now apply List.NoDup_cons_iff in Hls].
    + destruct Hpart as (tr & rest & -> & Htr & Hrest).
      destruct (IH rest Hrest) as [IHout IHin]. split.
      * intros Hnot tr' [<-|Hin].
        -- rewrite (drawn_names_level_trace _ _ _ Htr), El, Hlevel.
           intros E. apply Hnot. now left.
        -- apply IHout; [|exact Hin]. intros H. apply Hnot. now right.
      * intros Hin Hls. apply List.NoDup_cons_iff in Hls as [Hfresh Hls].
        destruct (Z.eq_dec (node_level nd) level) as [E|Hne].
        -- exists [], tr, rest. split; [reflexivity|]. split; [now rewrite E|].
           simpl. apply IHout. now rewrite E.
        -- destruct Hin as [E|Hin]; [congruence|].
           destruct (IHin Hin Hls) as (before & tr0 & after & -> & Htr0 & Hothers).
           exists (tr :: before), tr0, after. split; [reflexivity|].
           split; [exact Htr0|].
           intros tr' [<-|Hin'].
           ++ rewrite (drawn_names_level_trace _ _ _ Htr), El, Hlevel. exact Hne.
           ++ now apply Hothers.
Qed.

(** C6: the levels 0, 1 and 2 have their own marker size (20, 15, 12)
    and text size (14, 11, 9), and when the script runs to its end every
    node of level 0, 1 or 2 is drawn by exactly one trace, whose marker
    size and text size are those of the node's declared level, wherever
    the node stands in the dictionary. *)
Theorem tier_determined_by_level :
  (marker_size 0 = 20 /\ marker_size 1 = 15 /\ marker_size 2 = 12
   /\ text_size 0 = 14 /\ text_size 1 = 11 /\ text_size 2 = 9)
  /\ forall nodes connections fig name nd,
       List.NoDup (PyDict.keys nodes) ->
       render nodes connections = Ok fig ->
       PyDict.get name nodes = Some nd ->
       0 <= node_level nd < 3 ->
       exists before tr after m f,
         fig_data fig = before ++ tr :: after
         /\ In name (drawn_names tr)
         /\ trace_marker tr = Some m /\ size m = marker_size (node_level nd)
         /\ textfont tr = Some f /\ font_size f = text_size (node_level nd)
         /\ forall tr', In tr' (before ++ after) -> ~ In name (drawn_names tr').
Proof.
  split; [repeat split|].
  intros nodes connections fig name nd Hnd Hr Hget Hlevel.
  unfold render in Hr.
  apply bind_Ok_inv in Hr as (traces1 & E & Hr).
  apply bind_Ok_inv in Hr as (traces2 & E0 & Hr).
  injection Hr as <-. simpl fig_data.
  apply connection_loop_Ok in E as (cpart & -> & Hc). simpl app in E0.
  apply level_loop_Ok in E0 as (lpart & -> & Hl).
  destruct (level_part_split nodes name nd Hnd Hget levels lpart Hl) as [_ Hin].
  destruct Hin as (before & tr & after & -> & Htr & Hothers).
  { unfold levels. simpl. lia. }
  { unfold levels. repeat constructor; simpl; intuition discriminate. }
  pose proof (drawn_names_level_trace _ _ _ Htr) as Hdrawn.
  destruct Htr as (_ & (fill & Hm) & Hf).
  eexists (cpart ++ before), tr, after, _, _.
  split; [now rewrite <- app_assoc|].
  split; [rewrite Hdrawn; now apply (level_nodes_level nodes _ name nd Hnd Hget)|].
  split; [exact Hm|]. split; [reflexivity|].
  split; [exact Hf|]. split; [reflexivity|].
  intros tr' Hin'. rewrite <- app_assoc in Hin'.
  apply in_app_or in Hin' as [Hin'|Hin']; [|now apply Hothers].
  rewrite List.Forall_forall in Hc. rewrite (Hc tr' Hin'). intros [].
Qed.

(** In the script's tree "llm_config", a node of level 2, is drawn by
    the last trace, with marker size 12 and text size 9. *)
Lemma tier_determined_by_level_witness :
  exists fig before tr after m f,
    render nodes connections = Ok fig
    /\ fig_data fig = before ++ tr :: after
    /\ In "llm_config" (drawn_names tr)
    /\ trace_marker tr = Some m /\ size m = 12
    /\ textfont tr = Some f /\ font_size f = 9
    /\ forall tr', In tr' (before ++ after) -> ~ In "llm_config" (drawn_names tr').
Proof.
  destruct (render nodes connections) as [fig|err] eqn:Hr;
    [|vm_compute in Hr; discriminate Hr].
  destruct (proj2 tier_determined_by_level nodes connections fig "llm_config"
              (Node (PyNum.neg (dec 13)) (int 3) 2)
              (NoDup_keys_of_items _) Hr eq_refl)
    as (before & tr & after & m & f & H).
  { simpl. lia. }
  exists fig, before, tr, after, m, f. split; [reflexivity | exact H].
Defined.

End Levels.

(** * Further properties of the scripts *)

(** ** Integers as doubles *)

Section IntToFloat.

Lemma digits2_pos_size m : digits2_pos m = Pos.size m.
Proof. induction m; simpl; congruence. Qed.

Lemma digits2_pos_small m :
  Z.pos m < 2 ^ 53 -> Z.pos (digits2_pos m) <= 53.
Proof.
  intros H. rewrite digits2_pos_size.
  pose proof (Pos.size_le m) as Hs.
  apply Pos2Z.pos_le_pos in Hs.
  rewrite Pos2Z.inj_pow, (Pos2Z.inj_xO m) in Hs.
  destruct (Z.le_gt_cases (Z.pos (Pos.size m)) 53) as [Hle|Hgt]; [exact Hle|].
  exfalso.
  assert (2 ^ 54 <= 2 ^ Z.pos (Pos.size m)) as Hp.
  { apply Z.pow_le_mono_r; [reflexivity|]. clear -Hgt. lia. }
  change (2 ^ 54) with (2 * 2 ^ 53) in Hp.
  set (a := 2 ^ 53) in *. set (b := 2 ^ Z.pos (Pos.size m)) in *.
  clearbody a b. lia.
Qed.

Lemma digits2_pos_iter m p :
  digits2_pos (Pos.iter xO m p) = (digits2_pos m + p)%positive.
Proof.
  induction p as [|p IH] using Pos.peano_ind.
  - simpl. now rewrite Pos.add_1_r.
  - rewrite Pos.iter_succ. simpl. rewrite IH. now rewrite Pos.add_succ_r.
Qed.

Lemma Zpos_iter m p : Z.pos (Pos.iter xO m p) = Z.pos m * 2 ^ Z.pos p.
Proof.
  induction p as [|p IH] using Pos.peano_ind.
  - simpl. lia.
  - rewrite Pos.iter_succ, Pos2Z.inj_xO, IH, Pos2Z.inj_succ, Z.pow_succ_r by lia. lia.
Qed.

(** A mantissa of 53 digits with an exponent in range is stored as it
    is. *)
Lemma binary_round_aux_canonical s mz ez :
  Z.pos (digits2_pos mz) = 53 -> -1074 <= ez <= 971 ->
  binary_round_aux PyNum.prec PyNum.emax s (Z.pos mz) ez loc_Exact
  = S754_finite s mz ez.
Proof.
  intros Hd He. unfold binary_round_aux, shr_fexp.
  simpl Zdigits2. simpl shr_record_of_loc. rewrite Hd.
  assert (fexp PyNum.prec PyNum.emax (53 + ez) - ez = 0) as ->.
  { unfold fexp, emin, PyNum.prec, PyNum.emax. lia. }
  simpl. rewrite Hd.
  assert (fexp PyNum.prec PyNum.emax (53 + ez) - ez = 0) as ->.
  { unfold fexp, emin, PyNum.prec, PyNum.emax. lia. }
  simpl. unfold PyNum.emax, PyNum.prec.
  destruct (Z.leb_spec ez (1024 - 53)); [reflexivity | lia].
Qed.

Lemma binary_round_small s m :
  Z.pos m < 2 ^ 53 ->
  exists mz ez,
    binary_round PyNum.prec PyNum.emax s m 0 = S754_finite s mz ez
    /\ -52 <= ez <= 0
    /\ Z.pos mz = Z.pos m * 2 ^ (- ez).
Proof.
  intros Hm. apply digits2_pos_small in Hm.
  unfold binary_round.
  assert (fexp PyNum.prec PyNum.emax (Z.pos (digits2_pos m) + 0)
          = Z.pos (digits2_pos m) - 53) as ->.
  { unfold fexp, emin, PyNum.prec, PyNum.emax. lia. }
  unfold shl_align.
  destruct (Z.pos (digits2_pos m) - 53 - 0) as [|p|p] eqn:E; [|lia|].
  - exists m, 0. split; [|split; [lia | simpl; lia]].
    apply binary_round_aux_canonical; lia.
  - exists (Pos.iter xO m p), (Z.pos (digits2_pos m) - 53).
    split; [|split; [lia|]].
    + apply binary_round_aux_canonical; [|lia].
      rewrite digits2_pos_iter. lia.
    + rewrite Zpos_iter. f_equal. f_equal. lia.
Qed.

Lemma scaled_value (n k : Z) :
  0 <= k -> (inject_Z (n * 2 ^ k) * Qpower 2 (- k) == inject_Z n)%Q.
Proof.
  intros Hk. rewrite inject_Z_mult, Zpower_Qpower by exact Hk.
  rewrite Qpower_opp. change (inject_Z 2) with 2%Q.
  assert (~ (2 ^ k == 0)%Q) as Hne.
  { apply Qpower_not_0. intros H. discriminate H. }
  field. exact Hne.
Qed.

(** [float(z)] for an integer below 2^53 in magnitude: no overflow, and
    the double has the value [z]. *)
Lemma float_of_int_small z :
  Z.abs z < 2 ^ 53 ->
  exists f q,
    PyNum.float_of_int z = Ok f
    /\ PyNum.Q_of_float f = Some q
    /\ (q == inject_Z z)%Q.
Proof.
  intros Hz. unfold PyNum.float_of_int, binary_normalize.
  destruct z as [|m|m].
  - exists (S754_zero false), 0%Q. repeat split.
  - destruct (binary_round_small false m) as (mz & ez & -> & He & Hmz); [exact Hz|].
    eexists _, _. split; [reflexivity|]. split; [reflexivity|].
    simpl cond_Zopp. rewrite Hmz.
    replace ez with (- - ez) at 2 by lia. apply scaled_value. lia.
  - destruct (binary_round_small true m) as (mz & ez & -> & He & Hmz); [exact Hz|].
    eexists _, _. split; [reflexivity|]. split; [reflexivity|].
    simpl cond_Zopp. rewrite <- Pos2Z.opp_pos, Hmz.
    replace (- (Z.pos m * 2 ^ (- ez))) with ((- Z.pos m) * 2 ^ (- ez)) by lia.
    replace ez with (- - ez) at 2 by lia.
    rewrite scaled_value by lia. reflexivity.
Qed.

Lemma to_float_safe a :
  PyNum.safe a -> exists f, PyNum.to_float a = Ok f.
Proof.
  destruct a as [z|f]; simpl; intros H; [|now exists f].
  destruct (float_of_int_small z) as (f & _ & Hf & _); [|now exists f].
  change (2 ^ 53) with (2 * 2 ^ 52). set (b := 2 ^ 52) in *. clearbody b. lia.
Qed.

End IntToFloat.

(** ** How the flow diagram script ends *)

Section FlowOutcome.
Import Plotly ChartScript.

Lemma for_each_Raise_inv {S A} (body : S -> A -> result S) l s e :
  for_each body l s = Raise e ->
  exists l1 a l2 s',
    l = l1 ++ a :: l2 /\ for_each body l1 s = Ok s' /\ body s' a = Raise e.
Proof.
  revert s; induction l as [|a l IH]; intros s H; simpl in H; [discriminate H|].
  apply bind_Raise_inv in H as [H|(s1 & Hs1 & H)].
  - exists [], a, l, s. now repeat split.
  - apply IH in H as (l1 & b & l2 & s' & -> & Hl1 & Hb).
    exists (a :: l1), b, l2, s'. repeat split; [|exact Hb].
    simpl. now rewrite Hs1.
Qed.

Lemma binop_int fz ff x y :
  PyNum.binop fz ff (PyNum.Int x) (PyNum.Int y) = Ok (PyNum.Int (fz x y)).
Proof. reflexivity. Qed.

Lemma binop_float_l fz ff f b fb :
  PyNum.to_float b = Ok fb ->
  PyNum.binop fz ff (PyNum.Float f) b = Ok (PyNum.Float (ff f fb)).
Proof.
  unfold PyNum.binop. destruct b as [z|f0]; simpl PyNum.to_float; intros H.
  - now rewrite H.
  - now injection H as <-.
Qed.

Lemma binop_float_r fz ff a f fa :
  PyNum.to_float a = Ok fa ->
  PyNum.binop fz ff a (PyNum.Float f) = Ok (PyNum.Float (ff fa f)).
Proof.
  unfold PyNum.binop. destruct a as [z|f0]; simpl PyNum.to_float; intros H.
  - now rewrite H.
  - now injection H as <-.
Qed.

(** The arrowhead arithmetic on safe coordinates never raises, and gives
    a float. *)
Lemma arrow_coord_safe a b :
  PyNum.safe a -> PyNum.safe b ->
  exists f, arrow_coord a b = Ok (PyNum.Float f).
Proof.
  intros Ha Hb. unfold arrow_coord.
  destruct (to_float_safe a Ha) as (fa & Hfa).
  destruct (to_float_safe b Hb) as (fb & Hfb).
  assert (exists d fd, PyNum.sub b a = Ok d /\ PyNum.to_float d = Ok fd)
    as (d & fd & -> & Hfd).
  { destruct a as [x|f1], b as [y|f2].
    - exists (PyNum.Int (y - x)).
      destruct (float_of_int_small (y - x)) as (fd & _ & Hfd & _).
      + simpl in Ha, Hb. change (2 ^ 53) with (2 * 2 ^ 52).
        set (c := 2 ^ 52) in *. clearbody c. lia.
      + now exists fd.
    - eexists _, _. split; [exact (binop_float_l _ _ f2 _ _ Hfa) | reflexivity].
    - eexists _, _. split; [exact (binop_float_r _ _ _ f1 _ Hfb) | reflexivity].
    - eexists _, _. split; [exact (binop_float_l _ _ f2 _ _ Hfa) | reflexivity]. }
  change (Ok d ≫= (fun d => p ← PyNum.mul c0_9 d; PyNum.add a p))
    with (p ← PyNum.mul c0_9 d; PyNum.add a p).
  unfold PyNum.mul, c0_9. rewrite (binop_float_l _ _ _ _ _ Hfd).
  change (Ok ?p ≫= (fun p => PyNum.add a p)) with (PyNum.add a p).
  unfold PyNum.add. rewrite (binop_float_r _ _ _ _ _ Hfa). now eexists.
Qed.

Lemma safe_positions g k pos :
  safe_coordinates g ->
  PyDict.get k (node_positions g) = Some pos ->
  PyNum.safe (fst pos) /\ PyNum.safe (snd pos).
Proof.
  intros Hs Hk. destruct (node_of_position g k pos Hk) as (n & Hn & _ & ->).
  unfold safe_coordinates in Hs. rewrite List.Forall_forall in Hs.
  exact (Hs n Hn).
Qed.

Lemma edge_loop_outcome positions es traces :
  (forall k pos, PyDict.get k positions = Some pos ->
                 PyNum.safe (fst pos) /\ PyNum.safe (snd pos)) ->
  match PyDict.first_missing positions (references es) with
  | Some k => for_each (edge_body positions) es traces = Raise (KeyError k)
  | None => exists traces', for_each (edge_body positions) es traces = Ok traces'
  end.
Proof.
  intros Hsafe. revert traces; induction es as [|e es IH]; intros traces.
  - now exists traces.
  - unfold PyDict.first_missing. simpl List.find. simpl for_each.
    unfold edge_body, PyDict.getitem.
    destruct (PyDict.get (edge_from e) positions) as [p1|] eqn:E1; [|reflexivity].
    destruct (PyDict.get (edge_to e) positions) as [p2|] eqn:E2; [|reflexivity].
    destruct (Hsafe _ _ E1) as [Hx1 Hy1]. destruct (Hsafe _ _ E2) as [Hx2 Hy2].
    destruct (arrow_coord_safe _ _ Hx1 Hx2) as (ax & Hax).
    destruct (arrow_coord_safe _ _ Hy1 Hy2) as (ay & Hay).
    simpl. rewrite Hax. simpl. rewrite Hay. simpl. apply IH.
Qed.

Lemma node_loop_outcome ns traces :
  match List.find (fun n => negb (known_type n)) ns with
  | Some n => for_each node_body ns traces = Raise (KeyError (node_type n))
  | None => exists traces', for_each node_body ns traces = Ok traces'
  end.
Proof.
  revert traces; induction ns as [|n ns IH]; intros traces.
  - now exists traces.
  - simpl List.find. simpl for_each. unfold node_body, PyDict.getitem, known_type.
    destruct (PyDict.get (node_type n) type_colors) as [fill|]; [|reflexivity].
    simpl. apply IH.
Qed.

(** X2: how the script ends on a graph with safe coordinates (floats, or
    ints below 2^52 in magnitude): on the KeyError
    of the first dangling identifier; else on the KeyError of the category
    of the first node that has no colour; else with a figure. *)
Theorem flow_render_outcome g :
  safe_coordinates g ->
  match PyDict.first_missing (node_positions g) (references (edges g)) with
  | Some k => render g = Raise (KeyError k)
  | None =>
      match List.find (fun n => negb (known_type n)) (nodes g) with
      | Some n => render g = Raise (KeyError (node_type n))
      | None => exists fig, render g = Ok fig
      end
  end.
Proof.
  intros Hs. unfold render.
  pose proof (edge_loop_outcome (node_positions g) (edges g) []
                (fun k pos => safe_positions g k pos Hs)) as He.
  destruct (PyDict.first_missing _ _) as [k|]; [now rewrite He|].
  destruct He as (traces & ->).
  pose proof (node_loop_outcome (nodes g) traces) as Hn.
  destruct (List.find _ (nodes g)) as [n|].
  - change (Ok traces ≫= ?k) with (k traces). cbv beta. now rewrite Hn.
  - destruct Hn as (traces' & Hn).
    change (Ok traces ≫= ?k) with (k traces). cbv beta. rewrite Hn.
    now eexists.
Qed.

Lemma flow_render_outcome_witness :
  (exists fig, render data = Ok fig)
  /\ render dangling_graph = Raise (KeyError "ghost")
  /\ render (Graph [Node "a" "A" "start" (PyNum.Int 0) (PyNum.Int 0)] [])
     = Raise (KeyError "start").
Proof.
  assert (forall ns, Forall (fun n => exists x y, node_x n = PyNum.Int x
                                         /\ node_y n = PyNum.Int y
                                         /\ Z.abs x < 1000 /\ Z.abs y < 1000) ns ->
                     Forall (fun n => PyNum.safe (node_x n) /\ PyNum.safe (node_y n)) ns)
    as Hsafe.
  { intros ns H. eapply List.Forall_impl; [|exact H].
    intros n (x & y & -> & -> & Hx & Hy). simpl.
    change (2 ^ 52) with 4503599627370496. lia. }
  split; [|split].
  - apply (flow_render_outcome data). apply Hsafe.
    repeat (apply List.Forall_cons;
            [eexists _, _; split; [reflexivity|]; split; [reflexivity|]; simpl; lia|]).
    apply List.Forall_nil.
  - apply (flow_render_outcome dangling_graph). apply Hsafe.
    repeat (apply List.Forall_cons;
            [eexists _, _; split; [reflexivity|]; split; [reflexivity|]; simpl; lia|]).
    apply List.Forall_nil.
  - apply (flow_render_outcome
             (Graph [Node "a" "A" "start" (PyNum.Int 0) (PyNum.Int 0)] [])).
    apply Hsafe.
    repeat (apply List.Forall_cons;
            [eexists _, _; split; [reflexivity|]; split; [reflexivity|]; simpl; lia|]).
    apply List.Forall_nil.
Defined.

(** X3: whatever the graph, the script raises nothing but an OverflowError
    of the arrowhead arithmetic, the KeyError of an identifier that an
    edge names and no node has, or the KeyError of the category of a node
    that has no colour. *)
Theorem flow_render_errors g e :
  render g = Raise e ->
  e = OverflowError
  \/ (exists k, e = KeyError k
                /\ In k (references (edges g))
                /\ ~ In k (map node_id (nodes g)))
  \/ (exists n, In n (nodes g) /\ e = KeyError (node_type n)
                /\ known_type n = false).
Proof.
  unfold render. intros H.
  apply bind_Raise_inv in H as [H|(traces & _ & H)].
  - apply for_each_Raise_inv in H as (l1 & ed & l2 & s' & Hl & _ & H).
    assert (In ed (edges g)) as Hin by (rewrite Hl; apply in_elt).
    unfold edge_body, PyDict.getitem in H.
    destruct (PyDict.get (edge_from ed) (node_positions g)) as [p1|] eqn:E1.
    + destruct (PyDict.get (edge_to ed) (node_positions g)) as [p2|] eqn:E2.
      * left. simpl in H.
        apply bind_Raise_inv in H as [H|(ax & _ & H)];
          [now apply arrow_coord_error in H|].
        apply bind_Raise_inv in H as [H|(ay & _ & H)];
          [now apply arrow_coord_error in H | discriminate H].
      * right. left. injection H as <-. exists (edge_to ed).
        split; [reflexivity|]. split.
        -- apply in_flat_map. exists ed. simpl. tauto.
        -- rewrite <- keys_node_positions. now apply get_None.
    + right. left. injection H as <-. exists (edge_from ed).
      split; [reflexivity|]. split.
      * apply in_flat_map. exists ed. simpl. tauto.
      * rewrite <- keys_node_positions. now apply get_None.
  - apply bind_Raise_inv in H as [H|(traces' & _ & H)]; [|discriminate H].
    apply for_each_Raise_inv in H as (l1 & n & l2 & s' & Hl & _ & H).
    right. right. exists n. split; [rewrite Hl; apply in_elt|].
    unfold node_body, PyDict.getitem in H. unfold known_type.
    destruct (PyDict.get (node_type n) type_colors) as [fill|];
      [discriminate H|]. injection H as <-. now split.
Qed.

Lemma flow_render_errors_witness :
  KeyError "ghost" = OverflowError
  \/ (exists k, KeyError "ghost" = KeyError k
                /\ In k (references (edges dangling_graph))
                /\ ~ In k (map node_id (nodes dangling_graph)))
  \/ (exists n, In n (nodes dangling_graph)
                /\ KeyError "ghost" = KeyError (node_type n)
                /\ known_type n = false).
Proof.
  apply (flow_render_errors dangling_graph (KeyError "ghost")).
  vm_compute. reflexivity.
Defined.

Lemma edge_body_endpoints positions traces e e' :
  edge_from e = edge_from e' -> edge_to e = edge_to e' ->
  edge_body positions traces e = edge_body positions traces e'.
Proof. unfold edge_body. now intros -> ->. Qed.

(** X10: the label of an edge never reaches the figure: two graphs with
    the same nodes and the same edge endpoints, whatever the labels of
    their edges, give the same figure or the same exception. *)
Theorem edge_labels_ignored g g' :
  nodes g = nodes g' ->
  map (fun e => (edge_from e, edge_to e)) (edges g)
  = map (fun e => (edge_from e, edge_to e)) (edges g') ->
  render g = render g'.
Proof.
  intros Hn He. unfold render, node_positions. rewrite Hn.
  set (positions := PyDict.of_items _).
  assert (forall es es' traces,
            map (fun e => (edge_from e, edge_to e)) es
            = map (fun e => (edge_from e, edge_to e)) es' ->
            for_each (edge_body positions) es traces
            = for_each (edge_body positions) es' traces) as Hloop.
  { induction es as [|e es IH]; intros [|e' es'] traces H; try discriminate H;
      [reflexivity|].
    injection H as Hf Ht H. simpl.
    rewrite (edge_body_endpoints positions traces e e' Hf Ht).
    destruct (edge_body positions traces e') as [traces1|err]; [|reflexivity].
    simpl. now apply IH. }
  now rewrite (Hloop (edges g) (edges g') [] He).
Qed.

Lemma edge_labels_ignored_witness :
  render data
  = render (Graph (nodes data)
              (map (fun e => Edge (edge_from e) (edge_to e) "") (edges data))).
Proof.
  apply (edge_labels_ignored data
           (Graph (nodes data)
              (map (fun e => Edge (edge_from e) (edge_to e) "") (edges data))));
    reflexivity.
Defined.

End FlowOutcome.

(** ** Duplicate identifiers and the order of the traces *)

Section FlowTraces.
Import Plotly ChartScript.

Lemma get_app {V} k (d1 d2 : PyDict.t V) :
  PyDict.get k (d1 ++ d2)
  = match PyDict.get k d1 with
    | Some v => Some v
    | None => PyDict.get k d2
    end.
Proof.
  induction d1 as [|[k' v'] d1 IH]; simpl; [reflexivity|].
  now destruct (String.eqb k k').
Qed.

Lemma get_set {V} k k' (v : V) d :
  PyDict.get k (PyDict.set k' v d)
  = if String.eqb k k' then Some v else PyDict.get k d.
Proof.
  induction d as [|[k0 v0] d IH]; simpl; [reflexivity|].
  destruct (String.eqb_spec k' k0) as [->|Hne]; simpl.
  - now destruct (String.eqb k k0).
  - destruct (String.eqb_spec k k0) as [->|Hne'].
    + destruct (String.eqb_spec k0 k'); [congruence | reflexivity].
    + exact IH.
Qed.

(** Storing the items from left to right, the last value of a key is
    the one kept. *)
Lemma get_fold_store {V} k (l : list (string * V)) d :
  PyDict.get k (fold_left PyDict.store l d)
  = match PyDict.get k (rev l) with
    | Some v => Some v
    | None => PyDict.get k d
    end.
Proof.
  revert d; induction l as [|[k' v'] l IH]; intros d; simpl; [reflexivity|].
  rewrite IH, get_app. destruct (PyDict.get k (rev l)); [reflexivity|].
  unfold PyDict.store. simpl. rewrite get_set.
  now destruct (String.eqb k k').
Qed.

Lemma get_map_find {A V} (key : A -> string) (val : A -> V) k l :
  PyDict.get k (map (fun a => (key a, val a)) l)
  = option_map val (List.find (fun a => String.eqb (key a) k) l).
Proof.
  induction l as [|a l IH]; simpl; [reflexivity|].
  rewrite (String.eqb_sym k (key a)).
  now destruct (String.eqb (key a) k).
Qed.

(** X1: when several nodes carry the same identifier, the edges that name it
    are attached to the last of them; an identifier that no node carries
    has no position. *)
Theorem node_positions_last_wins g k :
  PyDict.get k (node_positions g)
  = option_map (fun n => (node_x n, node_y n)) (last_node g k).
Proof.
  unfold node_positions, PyDict.of_items, last_node.
  rewrite get_fold_store. simpl PyDict.get at 2.
  rewrite <- map_rev, get_map_find.
  now destruct (List.find _ (rev (nodes g))).
Qed.

Lemma legend_body_cases seen tr :
  snd (legend_body seen tr) = tr
  \/ snd (legend_body seen tr) = set_showlegend false tr.
Proof.
  unfold legend_body.
  destruct (name tr) as [n|]; [|now left].
  destruct (PyStr.truthy n); [|now left].
  destruct (bool_decide (n ∈ seen)); [now right | now left].
Qed.

Lemma remove_duplicate_legend_lookup seen traces j tr :
  traces !! j = Some tr ->
  exists tr', remove_duplicate_legend seen traces !! j = Some tr'
              /\ (tr' = tr \/ tr' = set_showlegend false tr).
Proof.
  revert seen j; induction traces as [|tr0 traces IH]; intros seen j Hj;
    [now destruct j|].
  simpl. pose proof (legend_body_cases seen tr0) as Hc.
  destruct (legend_body seen tr0) as [seen' tr1]. simpl in Hc.
  destruct j as [|j]; simpl in Hj.
  - injection Hj as <-. now exists tr1.
  - exact (IH seen' j Hj).
Qed.

(** X4: the legend loop leaves every trace in its place and changes at
    most its [showlegend], to False: it never shows a trace that was
    hidden, and never touches coordinates, markers, text or names. *)
Theorem legend_pass_only_hides seen traces :
  Forall2 (fun before after => after = before
                               \/ after = set_showlegend false before)
          traces (remove_duplicate_legend seen traces).
Proof.
  revert seen; induction traces as [|tr traces IH]; intros seen; simpl;
    [constructor|].
  pose proof (legend_body_cases seen tr) as Hc.
  destruct (legend_body seen tr) as [seen' tr'] eqn:E. simpl in Hc.
  constructor; [|apply IH].
  destruct Hc as [-> | ->]; [now left | now right].
Qed.

Lemma legend_body_twice seen tr :
  legend_body seen (snd (legend_body seen tr)) = legend_body seen tr.
Proof.
  unfold legend_body.
  destruct (name tr) as [n|] eqn:En; simpl; [|now rewrite En].
  destruct (PyStr.truthy n) eqn:Et; simpl; [|now rewrite En, Et].
  destruct (bool_decide (n ∈ seen)) eqn:Es; simpl.
  - now rewrite En, Et, Es.
  - now rewrite En, Et, Es.
Qed.

(** X5: running the legend loop a second time changes nothing. *)
Theorem legend_pass_idempotent seen traces :
  remove_duplicate_legend seen (remove_duplicate_legend seen traces)
  = remove_duplicate_legend seen traces.
Proof.
  revert seen; induction traces as [|tr traces IH]; intros seen; simpl;
    [reflexivity|].
  pose proof (legend_body_twice seen tr) as H.
  destruct (legend_body seen tr) as [seen' tr'] eqn:E. simpl.
  simpl in H. rewrite H. now rewrite IH.
Qed.

(** X6: the figure of a script that ran to its end has two traces for each
    edge followed by one trace for each node; trace [2 i] is the segment
    of edge [i], between the positions of its two nodes, out of the legend
    and without hover text. *)
Theorem edge_segments_first g fig :
  render g = Ok fig ->
  length (fig_data fig) = (2 * length (edges g) + length (nodes g))%nat
  /\ forall i e,
       edges g !! i = Some e ->
       exists from_pos to_pos tr,
         PyDict.get (edge_from e) (node_positions g) = Some from_pos
         /\ PyDict.get (edge_to e) (node_positions g) = Some to_pos
         /\ fig_data fig !! (2 * i)%nat = Some tr
         /\ mode tr = "lines"
         /\ x tr = [fst from_pos; fst to_pos]
         /\ y tr = [snd from_pos; snd to_pos]
         /\ showlegend tr = false
         /\ hoverinfo tr = "skip".
Proof.
  intros Hr. split.
  - apply render_Ok in Hr as (eparts & nparts & (Hlen & _) & Hn & -> & _).
    rewrite length_app, remove_duplicate_legend_length, Hlen.
    apply List.Forall2_length in Hn. now rewrite Hn.
  - intros i e Hi.
    destruct (edge_traces_in_figure g fig i e Hr Hi)
      as (line & arrow & (p1 & p2 & ax & ay & H1 & H2 & _ & _ & -> & _) & Hl & _).
    exists p1, p2, (line_trace p1 p2). now repeat split.
Qed.

Lemma edge_segments_first_witness :
  exists fig, render data = Ok fig /\ length (fig_data fig) = 32%nat.
Proof.
  destruct (render data) as [fig|err] eqn:Hr; [|vm_compute in Hr; discriminate Hr].
  exists fig. split; [reflexivity|].
  exact (proj1 (edge_segments_first data fig Hr)).
Defined.

(** X7: node [j] is trace [2 |edges| + j]: a marker of size 60 at the node's
    own coordinates, filled with the colour of its category, with the
    node's label as text and the title-cased category as name; the legend
    loop may only have taken it out of the legend. *)
Theorem node_markers_after_edges g fig j n :
  render g = Ok fig ->
  nodes g !! j = Some n ->
  exists fill tr,
    PyDict.get (node_type n) type_colors = Some fill
    /\ fig_data fig !! (2 * length (edges g) + j)%nat = Some tr
    /\ x tr = [node_x n] /\ y tr = [node_y n]
    /\ trace_marker tr = Some (Marker None 60 fill (Some (Line "#13343B" 2)))
    /\ text tr = Some (Text (node_label n))
    /\ name tr = Some (PyStr.title (node_type n))
    /\ set_showlegend true tr = node_trace n fill.
Proof.
  intros Hr Hj.
  apply render_Ok in Hr as (eparts & nparts & (Hlen & _) & Hn & -> & _).
  destruct (Forall2_lookup_l _ _ _ _ _ Hn Hj) as (tr0 & Htr0 & fill & Hfill & ->).
  destruct (remove_duplicate_legend_lookup ∅ nparts j _ Htr0)
    as (tr & Htr & Hcase).
  exists fill, tr. split; [exact Hfill|]. split.
  - rewrite lookup_app_r by lia.
    replace (2 * length (edges g) + j - length eparts)%nat with j by lia.
    exact Htr.
  - destruct Hcase as [-> | ->]; now repeat split.
Qed.

Lemma node_markers_after_edges_witness :
  exists fig tr,
    render data = Ok fig
    /\ fig_data fig !! 24%nat = Some tr
    /\ x tr = [PyNum.Int 350] /\ y tr = [PyNum.Int 200]
    /\ name tr = Some "Process".
Proof.
  destruct (render data) as [fig|err] eqn:Hr; [|vm_compute in Hr; discriminate Hr].
  destruct (node_markers_after_edges data fig 2
              (Node "parser" "AF Parser" "process" (PyNum.Int 350) (PyNum.Int 200))
              Hr eq_refl) as (fill & tr & _ & Htr & Hx & Hy & _ & _ & Hname & _).
  exists fig, tr. split; [reflexivity|]. split; [exact Htr|].
  split; [exact Hx|]. split; [exact Hy | exact Hname].
Defined.

End FlowTraces.

(** ** The legend as a whole, and edges of length zero *)

Section LegendContent.
Import Plotly ChartScript.

Lemma remove_duplicate_legend_cons seen tr traces n :
  name tr = Some n -> PyStr.truthy n = true ->
  remove_duplicate_legend seen (tr :: traces)
  = if bool_decide (n ∈ seen)
    then set_showlegend false tr :: remove_duplicate_legend seen traces
    else tr :: remove_duplicate_legend ({[ n ]} ∪ seen) traces.
Proof.
  intros Hn Ht. simpl. unfold legend_body. rewrite Hn, Ht.
  now destruct (bool_decide (n ∈ seen)).
Qed.

Lemma legend_entries_cons tr traces :
  legend_entries (tr :: traces)
  = if showlegend tr then name tr :: legend_entries traces
    else legend_entries traces.
Proof. unfold legend_entries. simpl. now destruct (showlegend tr). Qed.

(** On traces that all have a non-empty name and ask for a legend entry,
    the loop leaves one entry for each name that was not seen before. *)
Lemma legend_of_named seen traces :
  Forall (fun tr => exists n, name tr = Some n /\ PyStr.truthy n = true
                              /\ showlegend tr = true) traces ->
  List.NoDup (legend_entries (remove_duplicate_legend seen traces))
  /\ forall o,
       In o (legend_entries (remove_duplicate_legend seen traces))
       <-> exists L, o = Some L /\ (L ∉ seen)
                     /\ exists tr, In tr traces /\ name tr = Some L.
Proof.
  intros H. revert seen.
  induction H as [|tr traces (n & Hn & Ht & Hs) _ IH]; intros seen.
  - split; [apply List.NoDup_nil|]. intros o. split; [intros []|].
    intros (L & _ & _ & tr & [] & _).
  - rewrite (remove_duplicate_legend_cons seen tr traces n Hn Ht).
    destruct (bool_decide (n ∈ seen)) eqn:E.
    + apply bool_decide_eq_true in E.
      rewrite legend_entries_cons. simpl showlegend.
      destruct (IH seen) as [Hnd Hin]. split; [exact Hnd|].
      intros o. rewrite Hin. split.
      * intros (L & -> & HL & tr' & Htr' & Hname).
        exists L. repeat split; [exact HL|]. exists tr'. split; [now right | exact Hname].
      * intros (L & -> & HL & tr' & [<-|Htr'] & Hname).
        -- rewrite Hn in Hname. injection Hname as <-. contradiction.
        -- exists L. repeat split; [exact HL|]. now exists tr'.
    + apply bool_decide_eq_false in E.
      rewrite legend_entries_cons, Hs, Hn.
      destruct (IH ({[ n ]} ∪ seen)) as [Hnd Hin]. split.
      * apply List.NoDup_cons; [|exact Hnd].
        rewrite Hin. intros (L & [= <-] & HL & _). apply HL.
        apply elem_of_union. left. now apply elem_of_singleton.
      * intros o. simpl In. rewrite Hin. split.
        -- intros [<-|(L & -> & HL & tr' & Htr' & Hname)].
           ++ exists n. repeat split; [exact E|]. exists tr. split; [now left | exact Hn].
           ++ exists L. repeat split;
                [intros Hc; apply HL, elem_of_union; now right|].
              exists tr'. split; [now right | exact Hname].
        -- intros (L & -> & HL & tr' & Htr' & Hname).
           destruct (String.eqb_spec L n) as [->|Hne]; [now left|]. right.
           exists L. repeat split;
             [rewrite elem_of_union, elem_of_singleton; tauto|].
           destruct Htr' as [<-|Htr']; [congruence|]. now exists tr'.
Qed.

(** X8: the legend of a script that ran to its end has no entry twice, and
    its entries are exactly the title-cased categories of the nodes. *)
Theorem legend_lists_each_category_once g fig :
  render g = Ok fig ->
  List.NoDup (legend_entries (fig_data fig))
  /\ forall o,
       In o (legend_entries (fig_data fig))
       <-> exists n, In n (nodes g) /\ o = Some (PyStr.title (node_type n)).
Proof.
  intros Hr.
  apply render_Ok in Hr as (eparts & nparts & (_ & Hall & _) & Hn & -> & _).
  assert (legend_entries (eparts ++ remove_duplicate_legend ∅ nparts)
          = legend_entries (remove_duplicate_legend ∅ nparts)) as ->.
  { unfold legend_entries. rewrite List.filter_app, filter_none; [reflexivity|].
    rewrite List.Forall_forall in Hall. intros tr Htr. now apply Hall. }
  assert (Forall (fun tr => exists n, name tr = Some n /\ PyStr.truthy n = true
                                      /\ showlegend tr = true) nparts) as Hnamed.
  { apply List.Forall_forall. intros tr Htr.
    destruct (node_part_names _ _ _ Hn Htr) as (n & _ & Hname & Hs & Ht).
    now exists (PyStr.title (node_type n)). }
  destruct (legend_of_named ∅ nparts Hnamed) as [Hnd Hin].
  split; [exact Hnd|]. intros o. rewrite Hin. split.
  - intros (L & -> & _ & tr & Htr & Hname).
    destruct (node_part_names _ _ _ Hn Htr) as (n & Hin' & Hname' & _).
    exists n. split; [exact Hin' | congruence].
  - intros (n & Hin' & ->). exists (PyStr.title (node_type n)).
    split; [reflexivity|]. split; [apply not_elem_of_empty|].
    unfold node_part in Hn.
    apply list_elem_of_In, list_elem_of_lookup_1 in Hin' as (j & Hj).
    destruct (Forall2_lookup_l _ _ nparts j n Hn Hj) as (tr & Htr & fill & _ & ->).
    exists (node_trace n fill). split; [|reflexivity].
    apply list_elem_of_In. eapply list_elem_of_lookup_2. exact Htr.
Qed.

Lemma legend_lists_each_category_once_witness :
  exists fig,
    render data = Ok fig
    /\ List.NoDup (legend_entries (fig_data fig))
    /\ In (Some "Output") (legend_entries (fig_data fig)).
Proof.
  destruct (render data) as [fig|err] eqn:Hr; [|vm_compute in Hr; discriminate Hr].
  destruct (legend_lists_each_category_once data fig Hr) as [Hnd Hin].
  exists fig. split; [reflexivity|]. split; [exact Hnd|].
  apply Hin.
  exists (Node "export_af" ("Exported" ++ nl ++ ".af File") "output"
               (PyNum.Int 800) (PyNum.Int 350)).
  split; [simpl; tauto | reflexivity].
Defined.

Lemma SFsub_diag f q :
  PyNum.Q_of_float f = Some q ->
  SFsub PyNum.prec PyNum.emax f f = S754_zero false.
Proof.
  destruct f as [s| | |s m e]; try discriminate; intros _.
  - now destruct s.
  - unfold SFsub. rewrite Z.sub_diag. reflexivity.
Qed.

Lemma SFadd_zero_r f q :
  PyNum.Q_of_float f = Some q ->
  PyNum.Q_of_float (SFadd PyNum.prec PyNum.emax f (S754_zero false)) = Some q.
Proof.
  destruct f as [s| | |s m e]; try discriminate.
  - destruct s; simpl; congruence.
  - intros H. exact H.
Qed.

(** X9: an edge between two nodes at the same coordinate, or from a node to
    itself, has its arrowhead at that coordinate: for a safe and finite
    [a], [a + 0.9 * (a - a)] has the value of [a]. *)
Theorem arrow_coord_zero_length a :
  PyNum.safe a -> PyNum.finite a ->
  exists r q q',
    arrow_coord a a = Ok r
    /\ PyNum.value r = Some q /\ PyNum.value a = Some q' /\ (q == q')%Q.
Proof.
  intros Hs Hf. unfold arrow_coord.
  assert (PyNum.mul c0_9 (PyNum.Float (S754_zero false))
          = Ok (PyNum.Float (S754_zero false))) as Hmul by reflexivity.
  destruct a as [z|f].
  - unfold PyNum.sub. rewrite binop_int, Z.sub_diag.
    change (Ok (PyNum.Int 0) ≫= ?k) with (k (PyNum.Int 0)). cbv beta.
    assert (PyNum.mul c0_9 (PyNum.Int 0) = Ok (PyNum.Float (S754_zero false)))
      as -> by reflexivity.
    change (Ok ?p ≫= ?k) with (k p). cbv beta.
    destruct (float_of_int_small z) as (fz & q & Hfz & Hq & Heq).
    { simpl in Hs. change (2 ^ 53) with (2 * 2 ^ 52).
      set (c := 2 ^ 52) in *. clearbody c. lia. }
    unfold PyNum.add.
    rewrite (binop_float_r _ _ (PyNum.Int z) _ fz Hfz).
    eexists _, q, _. split; [reflexivity|].
    split; [exact (SFadd_zero_r fz q Hq)|]. split; [reflexivity | exact Heq].
  - unfold PyNum.finite in Hf. simpl in Hf.
    destruct (PyNum.Q_of_float f) as [q|] eqn:Hq; [|destruct Hf].
    unfold PyNum.sub. rewrite (binop_float_l _ _ f (PyNum.Float f) f eq_refl).
    rewrite (SFsub_diag f q Hq).
    change (Ok ?p ≫= ?k) with (k p). cbv beta. rewrite Hmul.
    change (Ok ?p ≫= ?k) with (k p). cbv beta.
    unfold PyNum.add.
    rewrite (binop_float_l _ _ f (PyNum.Float (S754_zero false)) _ eq_refl).
    eexists _, q, q. split; [reflexivity|].
    split; [exact (SFadd_zero_r f q Hq)|]. split; [exact Hq | reflexivity].
Qed.

Lemma arrow_coord_zero_length_witness :
  exists r q q',
    arrow_coord (PyNum.Int 200) (PyNum.Int 200) = Ok r
    /\ PyNum.value r = Some q /\ PyNum.value (PyNum.Int 200) = Some q'
    /\ (q == q')%Q.
Proof.
  apply (arrow_coord_zero_length (PyNum.Int 200)).
  - simpl. change (2 ^ 52) with 4503599627370496. lia.
  - exact I.
Defined.

End LegendContent.

(** ** How the hierarchy tree script ends, and what it draws *)

Section TreeOutcome.
Import Plotly ChartScript1.

Implicit Types (nodes : PyDict.t node).

Lemma bind_Ok {A B} (a : A) (k : A -> result B) : Ok a ≫= k = k a.
Proof. reflexivity. Qed.

Lemma map_result_Ok {A B} (f : A -> result B) (g : A -> B) l :
  (forall a, In a l -> f a = Ok (g a)) -> map_result f l = Ok (map g l).
Proof.
  induction l as [|a l IH]; intros H; simpl; [reflexivity|].
  rewrite (H a) by now left. simpl.
  rewrite IH by (intros b Hb; apply H; now right). reflexivity.
Qed.

Lemma level_nodes_items nodes level :
  level_nodes nodes level = map fst (level_items nodes level).
Proof. reflexivity. Qed.

(** In a dictionary the lookup of the name of an item finds the item. *)
Lemma level_lookups nodes level (proj : node -> PyNum.t) :
  List.NoDup (PyDict.keys nodes) ->
  map_result (fun name => n ← PyDict.getitem name nodes; Ok (proj n))
             (level_nodes nodes level)
  = Ok (map (fun item => proj (snd item)) (level_items nodes level)).
Proof.
  intros Hnd. rewrite level_nodes_items.
  assert (forall item, In item (level_items nodes level) ->
            PyDict.getitem (fst item) nodes = Ok (snd item)) as Hget.
  { intros [name nd] Hin. apply filter_In in Hin as [Hin _].
    apply getitem_Ok. now apply In_get_Some. }
  induction (level_items nodes level) as [|item items IH]; simpl; [reflexivity|].
  rewrite (Hget item) by now left. simpl.
  rewrite IH by (intros b Hb; apply Hget; now right). reflexivity.
Qed.

(** Without assuming distinct keys, the lookups still succeed. *)
Lemma level_lookups_Ok nodes level (proj : node -> PyNum.t) :
  exists cs,
    map_result (fun name => n ← PyDict.getitem name nodes; Ok (proj n))
               (level_nodes nodes level) = Ok cs.
Proof.
  assert (forall name, In name (level_nodes nodes level) ->
            exists nd, PyDict.get name nodes = Some nd) as Hget.
  { intros name Hin. apply In_level_nodes in Hin as (nd & Hin & _).
    destruct (PyDict.get name nodes) as [nd'|] eqn:E; [now exists nd'|].
    apply get_None in E. exfalso. apply E. apply in_map_iff. now exists (name, nd). }
  induction (level_nodes nodes level) as [|name names IH]; [now exists []|].
  destruct (Hget name) as (nd & Hnd); [now left|].
  destruct IH as (cs & Hcs); [intros b Hb; apply Hget; now right|].
  apply getitem_Ok in Hnd.
  exists (proj nd :: cs). simpl. rewrite Hnd. simpl. now rewrite Hcs.
Qed.

Lemma colors_getitem level :
  0 <= level < 3 -> exists fill, list_getitem colors level = Ok fill.
Proof.
  intros H. assert (level = 0 \/ level = 1 \/ level = 2) as [->|[->| ->]] by lia;
    now eexists.
Qed.

Lemma level_body_total nodes traces level :
  0 <= level < 3 -> exists traces', level_body nodes traces level = Ok traces'.
Proof.
  intros Hl. unfold level_body.
  destruct (level_lookups_Ok nodes level node_x) as (xs & Hxs).
  destruct (level_lookups_Ok nodes level node_y) as (ys & Hys).
  destruct (colors_getitem level Hl) as (fill & Hfill).
  destruct (level_nodes nodes level) as [|name names]; [now exists traces|].
  rewrite Hxs, bind_Ok, Hys, bind_Ok, Hfill, bind_Ok. now eexists.
Qed.

Lemma level_loop_total nodes traces :
  exists traces', for_each (level_body nodes) levels traces = Ok traces'.
Proof.
  unfold levels. simpl for_each.
  destruct (level_body_total nodes traces 0) as (t0 & ->); [lia|].
  rewrite bind_Ok.
  destruct (level_body_total nodes t0 1) as (t1 & ->); [lia|].
  rewrite bind_Ok.
  destruct (level_body_total nodes t1 2) as (t2 & ->); [lia|].
  rewrite bind_Ok. now exists t2.
Qed.

Lemma connection_loop_outcome nodes cs traces :
  match PyDict.first_missing nodes (references cs) with
  | Some k => for_each (connection_body nodes) cs traces = Raise (KeyError k)
  | None => exists traces', for_each (connection_body nodes) cs traces = Ok traces'
  end.
Proof.
  revert traces; induction cs as [|[parent child] cs IH]; intros traces.
  - now exists traces.
  - unfold PyDict.first_missing. simpl List.find. simpl for_each.
    unfold connection_body, PyDict.getitem.
    destruct (PyDict.get parent nodes) as [p|]; [|reflexivity].
    destruct (PyDict.get child nodes) as [c|]; [|reflexivity].
    simpl. apply IH.
Qed.

(** X11: the script ends with a figure exactly when every name of every
    connection is a key of the dictionary; else it ends on the KeyError of
    the first name that is not.  Drawing the levels never raises. *)
Theorem tree_render_outcome nodes connections :
  match PyDict.first_missing nodes (references connections) with
  | Some k => render nodes connections = Raise (KeyError k)
  | None => exists fig, render nodes connections = Ok fig
  end.
Proof.
  unfold render.
  pose proof (connection_loop_outcome nodes connections []) as Hc.
  destruct (PyDict.first_missing nodes (references connections)) as [k|].
  - now rewrite Hc.
  - destruct Hc as (traces & ->).
    change (Ok traces ≫= ?k) with (k traces). cbv beta.
    destruct (level_loop_total nodes traces) as (traces' & ->). now eexists.
Qed.

(** What the connection loop appends: one segment for each connection,
    between the coordinates of the parent and of the child. *)
Lemma connection_loop_segments nodes cs traces traces' :
  for_each (connection_body nodes) cs traces = Ok traces' ->
  exists part,
    traces' = traces ++ part
    /\ length part = length cs
    /\ forall i parent child,
         cs !! i = Some (parent, child) ->
         exists p c tr,
           PyDict.get parent nodes = Some p
           /\ PyDict.get child nodes = Some c
           /\ part !! i = Some tr
           /\ mode tr = "lines"
           /\ x tr = [node_x p; node_x c]
           /\ y tr = [node_y p; node_y c]
           /\ drawn_names tr = [].
Proof.
  revert traces; induction cs as [|[parent child] cs IH]; intros traces H;
    simpl in H.
  - injection H as <-. exists []. rewrite app_nil_r. repeat split.
    intros i p c Hi. now destruct i.
  - apply bind_Ok_inv in H as (traces1 & Hb & H).
    unfold connection_body in Hb.
    apply bind_Ok_inv in Hb as (p & Hp & Hb).
    apply bind_Ok_inv in Hb as (c & Hc & Hb).
    rewrite Hp in Hb. change (Ok p ≫= ?k) with (k p) in Hb. cbv beta in Hb.
    rewrite Hc in Hb. change (Ok c ≫= ?k) with (k c) in Hb. cbv beta in Hb.
    injection Hb as <-.
    apply getitem_Ok in Hp, Hc.
    apply IH in H as (part & -> & Hlen & Hpart).
    eexists (_ :: part). split; [unfold add_trace; now rewrite <- app_assoc|].
    split; [simpl; now rewrite Hlen|].
    intros [|i] parent' child' Hi; simpl in Hi.
    + injection Hi as <- <-. eexists p, c, _. now repeat split.
    + exact (Hpart i parent' child' Hi).
Qed.

Lemma level_part_length nodes ls part :
  level_part nodes ls part ->
  length part
  = length (List.filter (fun level => match level_nodes nodes level with
                                      | [] => false
                                      | _ :: _ => true
                                      end) ls).
Proof.
  revert part; induction ls as [|level ls IH]; intros part H; simpl in H.
  - now subst part.
  - simpl List.filter. destruct (level_nodes nodes level) as [|name names].
    + now apply IH.
    + destruct H as (tr & rest & -> & _ & Hrest). simpl. now rewrite (IH rest).
Qed.

(** X12: the figure has one segment for each connection, in the order of the
    list, then one marker trace for each of the levels 0, 1, 2 that has a
    node; segment [i] joins the coordinates of the parent and of the child
    of connection [i]. *)
Theorem connections_then_levels nodes connections fig :
  render nodes connections = Ok fig ->
  length (fig_data fig)
  = (length connections + length (drawn_levels nodes))%nat
  /\ forall i parent child,
       connections !! i = Some (parent, child) ->
       exists p c tr,
         PyDict.get parent nodes = Some p
         /\ PyDict.get child nodes = Some c
         /\ fig_data fig !! i = Some tr
         /\ mode tr = "lines"
         /\ x tr = [node_x p; node_x c]
         /\ y tr = [node_y p; node_y c].
Proof.
  intros Hr. unfold render in Hr.
  apply bind_Ok_inv in Hr as (traces1 & E & Hr).
  apply bind_Ok_inv in Hr as (traces2 & E0 & Hr).
  injection Hr as <-. simpl fig_data.
  apply connection_loop_segments in E as (cpart & -> & Hlen & Hc). simpl app in E0.
  apply level_loop_Ok in E0 as (lpart & -> & Hl).
  split.
  - rewrite length_app, Hlen. now rewrite (level_part_length _ _ _ Hl).
  - intros i parent child Hi.
    destruct (Hc i parent child Hi) as (p & c & tr & Hp & Hc' & Htr & H).
    exists p, c, tr. split; [exact Hp|]. split; [exact Hc'|]. split.
    + rewrite lookup_app_l; [exact Htr|]. now apply lookup_lt_Some in Htr.
    + tauto.
Qed.

Lemma connections_then_levels_witness :
  exists fig, render nodes connections = Ok fig
              /\ length (fig_data fig) = 24%nat.
Proof.
  destruct (render nodes connections) as [fig|err] eqn:Hr;
    [|vm_compute in Hr; discriminate Hr].
  exists fig. split; [reflexivity|].
  exact (proj1 (connections_then_levels nodes connections fig Hr)).
Defined.

(** X13: a node whose level is not 0, 1 or 2 is in no trace: the script
    draws it nowhere, without any error. *)
Theorem other_levels_not_drawn nodes connections fig name nd :
  List.NoDup (PyDict.keys nodes) ->
  render nodes connections = Ok fig ->
  PyDict.get name nodes = Some nd ->
  ~ (0 <= node_level nd < 3) ->
  forall tr, In tr (fig_data fig) -> ~ In name (drawn_names tr).
Proof.
  intros Hnd Hr Hget Hlevel tr Htr. unfold render in Hr.
  apply bind_Ok_inv in Hr as (traces1 & E & Hr).
  apply bind_Ok_inv in Hr as (traces2 & E0 & Hr).
  injection Hr as <-. simpl fig_data in Htr.
  apply connection_loop_Ok in E as (cpart & -> & Hc). simpl app in E0.
  apply level_loop_Ok in E0 as (lpart & -> & Hl).
  apply in_app_or in Htr as [Htr|Htr].
  - rewrite List.Forall_forall in Hc. rewrite (Hc tr Htr). intros [].
  - destruct (level_part_split nodes name nd Hnd Hget levels lpart Hl) as [Hout _].
    apply Hout; [|exact Htr]. unfold levels. simpl. lia.
Qed.

Lemma other_levels_not_drawn_witness :
  exists fig,
    render (PyDict.of_items [("root", Node (int 0) (int 5) 0);
                             ("deep", Node (int 0) (int 2) 3)])
           [("root", "deep")] = Ok fig
    /\ forall tr, In tr (fig_data fig) -> ~ In "deep" (drawn_names tr).
Proof.
  destruct (render _ _) as [fig|err] eqn:Hr; [|vm_compute in Hr; discriminate Hr].
  exists fig. split; [reflexivity|].
  apply (other_levels_not_drawn _ _ fig "deep" (Node (int 0) (int 2) 3)
           (NoDup_keys_of_items _) Hr eq_refl).
  simpl. lia.
Defined.

Lemma level_body_trace nodes traces level traces' :
  List.NoDup (PyDict.keys nodes) ->
  level_body nodes traces level = Ok traces' ->
  level_nodes nodes level <> [] ->
  exists fill,
    list_getitem colors level = Ok fill
    /\ traces' = traces ++ [level_marker_trace nodes level fill].
Proof.
  intros Hnd H Hne. unfold level_body in H.
  rewrite (level_lookups nodes level node_x Hnd) in H.
  rewrite (level_lookups nodes level node_y Hnd) in H.
  unfold level_marker_trace. rewrite <- level_nodes_items.
  destruct (level_nodes nodes level) as [|name names]; [now destruct Hne|].
  rewrite !bind_Ok in H.
  apply bind_Ok_inv in H as (fill & Hfill & H). injection H as <-.
  now exists fill.
Qed.

Lemma level_loop_trace nodes ls traces traces' level :
  List.NoDup (PyDict.keys nodes) ->
  for_each (level_body nodes) ls traces = Ok traces' ->
  In level ls -> level_nodes nodes level <> [] ->
  exists fill,
    list_getitem colors level = Ok fill
    /\ In (level_marker_trace nodes level fill) traces'.
Proof.
  intros Hnd. revert traces; induction ls as [|l ls IH]; intros traces H Hin Hne;
    [destruct Hin|].
  simpl in H. apply bind_Ok_inv in H as (traces1 & Hb & H).
  destruct Hin as [->|Hin].
  - destruct (level_body_trace _ _ _ _ Hnd Hb Hne) as (fill & Hfill & ->).
    exists fill. split; [exact Hfill|].
    apply level_loop_Ok in H as (part & -> & _).
    apply in_or_app. left. apply in_or_app. right. now left.
  - exact (IH traces1 H Hin Hne).
Qed.

(** X14: each of the levels 0, 1, 2 that has a node is drawn as one trace
    that lists the nodes of the level in the order of the dictionary, with
    the coordinates, the text and the hover text of each node at the same
    position of their lists, in the colour of the level. *)
Theorem level_trace_alignment nodes connections fig level :
  List.NoDup (PyDict.keys nodes) ->
  render nodes connections = Ok fig ->
  In level (drawn_levels nodes) ->
  exists fill,
    list_getitem colors level = Ok fill
    /\ In (level_marker_trace nodes level fill) (fig_data fig).
Proof.
  intros Hnd Hr Hin. unfold render in Hr.
  apply bind_Ok_inv in Hr as (traces1 & _ & Hr).
  apply bind_Ok_inv in Hr as (traces2 & E0 & Hr).
  injection Hr as <-. simpl fig_data.
  unfold drawn_levels in Hin. apply filter_In in Hin as [Hin Hne].
  apply (level_loop_trace nodes levels traces1 traces2 level Hnd E0 Hin).
  intros E. now rewrite E in Hne.
Qed.

Lemma level_trace_alignment_witness :
  exists fig tr,
    render nodes connections = Ok fig
    /\ In tr (fig_data fig)
    /\ text tr = Some (Texts ["Core Fields"; "Configuration"; "Memory & Msgs";
                              "Tooling"; "Metadata"])
    /\ x tr = [int (-3); int (-1); int 1; int 3; int 5]
    /\ trace_marker tr = Some (Marker None 15 "#FFC185" (Some (Line "white" 2))).
Proof.
  destruct (render nodes connections) as [fig|err] eqn:Hr;
    [|vm_compute in Hr; discriminate Hr].
  destruct (level_trace_alignment nodes connections fig 1
              (NoDup_keys_of_items _) Hr) as (fill & Hfill & Hin).
  { unfold drawn_levels. apply filter_In. split; [simpl; tauto | reflexivity]. }
  injection Hfill as <-.
  exists fig, (level_marker_trace nodes 1 "#FFC185").
  split; [reflexivity|]. split; [exact Hin|]. now repeat split.
Defined.

End TreeOutcome.

(** ** The rows of the mapping flattener *)

Section FlattenerRows.
Import Script.

(** X15: a row is in the table exactly when the mapping has a dictionary
    under a top-level key and, under one of its keys, either a dictionary
    with the row's field and description, or a value that is not a
    dictionary, which is the description of a row with an empty field. *)
Theorem flatten_rows_characterised mapping r :
  In r (flatten mapping)
  <-> exists category items subcategory details,
        In (category, Dict items) mapping
        /\ In (subcategory, details) items
        /\ ((exists fields key value,
               details = Dict fields /\ In (key, value) fields
               /\ r = Row category subcategory key value)
            \/ (exists description,
                  details = Str description
                  /\ r = Row category subcategory "" details)).
Proof.
  rewrite flatten_declaration_order. unfold declaration_order.
  rewrite in_flat_map. split.
  - intros ([c v] & Hc & Hr). unfold rows_of_category in Hr. simpl in Hr.
    destruct v as [s|items]; [destruct Hr|].
    apply in_flat_map in Hr as ([sub d] & Hs & Hr).
    exists c, items, sub, d. split; [exact Hc|]. split; [exact Hs|].
    unfold rows_of_subcategory in Hr. simpl in Hr.
    destruct d as [s|fields].
    + right. destruct Hr as [<-|[]]. now exists s.
    + left. apply in_map_iff in Hr as ([k v] & <- & Hk). now exists fields, k, v.
  - intros (c & items & sub & d & Hc & Hs & Hcase).
    exists (c, Dict items). split; [exact Hc|].
    unfold rows_of_category. simpl. apply in_flat_map.
    exists (sub, d). split; [exact Hs|].
    unfold rows_of_subcategory. simpl.
    destruct Hcase as [(fields & k & v & -> & Hk & ->)|(s & -> & ->)].
    + apply in_map_iff. now exists (k, v).
    + now left.
Qed.

Lemma flatten_rows_characterised_witness :
  In (Row "Key Differences" "Tool Definitions" "af_approach"
          (Str "Complete tool source code + JSON schema"))
     (flatten af_to_mastra_mapping).
Proof.
  apply (proj2 (flatten_rows_characterised af_to_mastra_mapping _)).
  eexists "Key Differences", _, "Tool Definitions", _.
  split; [right; left; reflexivity|].
  split; [right; left; reflexivity|].
  left. eexists _, "af_approach", _.
  split; [reflexivity|]. split; [left; reflexivity | reflexivity].
Defined.

Lemma rows_of_category_key ci r :
  In r (rows_of_category ci) -> Category r = fst ci.
Proof.
  intros H.
  assert (flatten [ci] = rows_of_category ci) as Hci.
  { rewrite flatten_declaration_order. unfold declaration_order. simpl.
    now rewrite app_nil_r. }
  rewrite <- Hci in H.
  apply (flatten_category_in [ci] r) in H as [H|[]]. now symmetry.
Qed.

Lemma count_category_other c rows :
  (forall r, In r rows -> Category r <> c) -> count_category c rows = 0%nat.
Proof.
  intros H. unfold count_category. rewrite filter_none; [reflexivity|].
  intros r Hr. apply String.eqb_neq. now apply H.
Qed.

Lemma count_category_same c rows :
  (forall r, In r rows -> Category r = c) -> count_category c rows = length rows.
Proof.
  intros H. unfold count_category.
  induction rows as [|r rows IH]; simpl; [reflexivity|].
  rewrite (H r) by now left. rewrite String.eqb_refl. simpl.
  rewrite IH; [reflexivity|]. intros r' Hr'. apply H. now right.
Qed.

(** X16: the count printed for a category is the number of rows that the
    entries under that very key produce: the entries under other keys, and
    the order of the entries, do not matter, and a key that the mapping
    does not have counts zero. *)
Theorem count_category_by_key c mapping :
  count_category c (flatten mapping)
  = length (flatten (List.filter (fun ci => String.eqb (fst ci) c) mapping))
  /\ (~ In c (map fst mapping) -> count_category c (flatten mapping) = 0%nat).
Proof.
  assert (count_category c (flatten mapping)
          = length (flatten (List.filter (fun ci => String.eqb (fst ci) c) mapping)))
    as Hcount.
  { induction mapping as [|ci mapping IH]; [reflexivity|].
    change (ci :: mapping) with ([ci] ++ mapping).
    rewrite flatten_app, count_category_app, IH, List.filter_app.
    assert (flatten [ci] = rows_of_category ci) as Hci.
    { rewrite flatten_declaration_order. unfold declaration_order. simpl.
      now rewrite app_nil_r. }
    simpl List.filter. destruct (String.eqb_spec (fst ci) c) as [E|Hne].
    - rewrite flatten_app, length_app. f_equal.
      apply count_category_same. intros r Hr. rewrite Hci in Hr.
      apply rows_of_category_key in Hr. congruence.
    - simpl app. rewrite count_category_other; [reflexivity|].
      intros r Hr. rewrite Hci in Hr. apply rows_of_category_key in Hr. congruence. }
  split; [exact Hcount|].
  intros Hnot. rewrite Hcount.
  rewrite filter_none; [reflexivity|].
  intros ci Hci. apply String.eqb_neq. intros E. apply Hnot.
  apply in_map_iff. now exists ci.
Qed.

Lemma count_category_by_key_witness :
  count_category "Key Differences" (flatten af_to_mastra_mapping) = 6%nat
  /\ count_category "Tools" (flatten af_to_mastra_mapping) = 0%nat.
Proof.
  split.
  - rewrite (proj1 (count_category_by_key "Key Differences" af_to_mastra_mapping)).
    reflexivity.
  - apply (proj2 (count_category_by_key "Tools" af_to_mastra_mapping)).
    simpl. intros [H|[H|[]]]; discriminate H.
Defined.

End FlattenerRows.

(** ** Two runs of a script *)

Section Runs.
Import Plotly.

Variable hash : PyHash.hash_fn.

Lemma for_each_ext {S A} (body1 body2 : S -> A -> result S) l s :
  (forall s a, body1 s a = body2 s a) ->
  for_each body1 l s = for_each body2 l s.
Proof.
  intros H. revert s; induction l as [|a l IH]; intros s; simpl; [reflexivity|].
  rewrite H. destruct (body2 s a) as [s'|e]; simpl; [apply IH | reflexivity].
Qed.

Lemma map_result_ext {A B} (f1 f2 : A -> result B) l :
  (forall a, f1 a = f2 a) -> map_result f1 l = map_result f2 l.
Proof.
  intros H. induction l as [|a l IH]; simpl; [reflexivity|].
  now rewrite H, IH.
Qed.

(** A lookup through the hash finds what a lookup by key finds. *)
Lemma hashed_get {V} k (d : PyHash.dict V) :
  PyHash.well_hashed hash d ->
  PyHash.get hash k d = PyDict.get k (PyHash.items d).
Proof.
  unfold PyHash.get. induction 1 as [|e d He _ IH]; simpl; [reflexivity|].
  unfold PyHash.matches at 1. rewrite (String.eqb_sym k (PyHash.entry_key e)).
  destruct (String.eqb_spec (PyHash.entry_key e) k) as [E|Hne].
  - rewrite He, E, N.eqb_refl. reflexivity.
  - rewrite andb_false_r. exact IH.
Qed.

Lemma hashed_getitem {V} k (d : PyHash.dict V) :
  PyHash.well_hashed hash d ->
  PyHash.getitem hash k d = PyDict.getitem k (PyHash.items d).
Proof.
  intros H. unfold PyHash.getitem, PyDict.getitem. now rewrite hashed_get.
Qed.

Lemma hashed_set {V} k (v : V) (d : PyHash.dict V) :
  PyHash.well_hashed hash d ->
  PyHash.items (PyHash.set hash k v d) = PyDict.set k v (PyHash.items d)
  /\ PyHash.well_hashed hash (PyHash.set hash k v d).
Proof.
  induction 1 as [|e d He Hd [IHi IHw]]; simpl.
  - split; [reflexivity|]. now repeat constructor.
  - unfold PyHash.matches.
    rewrite (String.eqb_sym k (PyHash.entry_key e)).
    destruct (String.eqb_spec (PyHash.entry_key e) k) as [E|Hne].
    + rewrite He, E, N.eqb_refl. simpl. split; [reflexivity|].
      constructor; [reflexivity | exact Hd].
    + rewrite andb_false_r. simpl. rewrite IHi. split; [reflexivity|].
      now constructor.
Qed.

Lemma hashed_fold {V} (l : list (string * V)) (d : PyHash.dict V) :
  PyHash.well_hashed hash d ->
  PyHash.items (fold_left (PyHash.store hash) l d)
  = fold_left PyDict.store l (PyHash.items d)
  /\ PyHash.well_hashed hash (fold_left (PyHash.store hash) l d).
Proof.
  revert d; induction l as [|kv l IH]; intros d Hd; simpl; [now split|].
  destruct (hashed_set (fst kv) (snd kv) d Hd) as [Hi Hw].
  destruct (IH _ Hw) as [IHi IHw].
  change (PyHash.store hash d kv) with (PyHash.set hash (fst kv) (snd kv) d).
  change (PyDict.store (PyHash.items d) kv)
    with (PyDict.set (fst kv) (snd kv) (PyHash.items d)).
  split; [|exact IHw]. now rewrite IHi, Hi.
Qed.

(** A dictionary built in the run has the items, in the order, of the
    dictionary of the model. *)
Lemma hashed_of_items {V} (l : list (string * V)) :
  PyHash.items (PyHash.of_items hash l) = PyDict.of_items l
  /\ PyHash.well_hashed hash (PyHash.of_items hash l).
Proof. apply (hashed_fold l []). constructor. Qed.

Lemma contains_place e t s :
  PyHash.contains hash s (PyHash.place e t)
  = (N.eqb (fst e) (hash s) && String.eqb (snd e) s) || PyHash.contains hash s t.
Proof.
  unfold PyHash.contains. induction t as [|e' t IH]; simpl; [reflexivity|].
  destruct (N.ltb (fst e) (fst e')); simpl; [reflexivity|].
  rewrite IH.
  destruct (N.eqb (fst e') (hash s) && String.eqb (snd e') s);
    destruct (N.eqb (fst e) (hash s) && String.eqb (snd e) s); reflexivity.
Qed.

(** Membership after [add], whatever the layout. *)
Lemma contains_add n t s :
  PyHash.contains hash s (PyHash.add hash n t)
  = String.eqb n s || PyHash.contains hash s t.
Proof.
  unfold PyHash.add. destruct (PyHash.contains hash n t) eqn:E.
  - destruct (String.eqb_spec n s) as [<-|Hne]; [now rewrite E | reflexivity].
  - rewrite contains_place. simpl.
    destruct (String.eqb_spec n s) as [<-|Hne].
    + now rewrite N.eqb_refl.
    + now rewrite andb_false_r.
Qed.

(** The legend loop of the run, on a set that has the elements of the
    set of the model, hides the traces that the model hides. *)
Lemma legend_loop_refines t seen traces :
  (forall s, PyHash.contains hash s t = bool_decide (s ∈ seen)) ->
  snd (ChartScriptRun.remove_duplicate_legend hash t traces)
  = ChartScript.remove_duplicate_legend seen traces.
Proof.
  revert t seen; induction traces as [|tr traces IH]; intros t seen H; simpl;
    [reflexivity|].
  unfold ChartScriptRun.legend_body, ChartScript.legend_body.
  destruct (name tr) as [n|].
  - destruct (PyStr.truthy n).
    + rewrite H. destruct (bool_decide (n ∈ seen)) eqn:E.
      * specialize (IH t seen H).
        destruct (ChartScriptRun.remove_duplicate_legend hash t traces).
        simpl in *. now rewrite IH.
      * assert (forall s, PyHash.contains hash s (PyHash.add hash n t)
                          = bool_decide (s ∈ {[ n ]} ∪ seen)) as H'.
        { intros s. rewrite contains_add, H.
          destruct (String.eqb_spec n s) as [<-|Hne]; simpl.
          - symmetry. apply bool_decide_eq_true_2.
            apply elem_of_union. left. now apply elem_of_singleton.
          - apply bool_decide_ext. rewrite elem_of_union, elem_of_singleton.
            split; [tauto|]. intros [->|Hs]; [contradiction | exact Hs]. }
        specialize (IH _ _ H').
        destruct (ChartScriptRun.remove_duplicate_legend hash _ traces).
        simpl in *. now rewrite IH.
    + specialize (IH t seen H).
      destruct (ChartScriptRun.remove_duplicate_legend hash t traces).
      simpl in *. now rewrite IH.
  - specialize (IH t seen H).
    destruct (ChartScriptRun.remove_duplicate_legend hash t traces).
    simpl in *. now rewrite IH.
Qed.

(** The flow diagram script of a run produces the figure of the model,
    whatever the hash of the run. *)
Lemma flow_run_refines g :
  ChartScriptRun.render hash g = ChartScript.render g.
Proof.
  unfold ChartScriptRun.render, ChartScriptRun.run, ChartScript.render.
  destruct (hashed_of_items
              (map (fun n => (ChartScript.node_id n,
                              (ChartScript.node_x n, ChartScript.node_y n)))
                   (ChartScript.nodes g))) as [Hpi Hpw].
  destruct (hashed_of_items
              [("input", "#1FB8CD"); ("process", "#FFC185"); ("output", "#5D878F")])
    as [Hci Hcw].
  rewrite (for_each_ext (ChartScriptRun.edge_body hash (ChartScriptRun.node_positions hash g))
             (ChartScript.edge_body (ChartScript.node_positions g))).
  2:{ intros s e. unfold ChartScriptRun.edge_body, ChartScript.edge_body.
      unfold ChartScriptRun.node_positions, ChartScript.node_positions.
      rewrite !(hashed_getitem _ _ Hpw), Hpi. reflexivity. }
  destruct (for_each _ (ChartScript.edges g) []) as [traces|e]; [|reflexivity].
  rewrite !bind_Ok.
  rewrite (for_each_ext (ChartScriptRun.node_body hash) ChartScript.node_body).
  2:{ intros s n. unfold ChartScriptRun.node_body, ChartScript.node_body.
      unfold ChartScriptRun.type_colors, ChartScript.type_colors.
      rewrite (hashed_getitem _ _ Hcw), Hci. reflexivity. }
  destruct (for_each ChartScript.node_body (ChartScript.nodes g) traces)
    as [traces'|e]; [|reflexivity].
  rewrite !bind_Ok.
  pose proof (legend_loop_refines [] ∅ traces') as Hl.
  destruct (ChartScriptRun.remove_duplicate_legend hash [] traces') as [seen out].
  rewrite bind_Ok. simpl in *. rewrite Hl; [reflexivity|].
  intros s. symmetry. apply bool_decide_eq_false_2. apply not_elem_of_empty.
Qed.

(** The hierarchy tree script of a run produces the figure of the model
    on the dictionary of the display, whatever the hash of the run. *)
Lemma tree_run_refines node_items connections :
  ChartScript1Run.render hash node_items connections
  = ChartScript1.render (PyDict.of_items node_items) connections.
Proof.
  unfold ChartScript1Run.render, ChartScript1.render.
  destruct (hashed_of_items node_items) as [Hi Hw].
  set (nodes := PyHash.of_items hash node_items) in *.
  rewrite (for_each_ext (ChartScript1Run.connection_body hash nodes)
             (ChartScript1.connection_body (PyDict.of_items node_items))).
  2:{ intros s [parent child].
      unfold ChartScript1Run.connection_body, ChartScript1.connection_body.
      rewrite !(hashed_getitem _ _ Hw), Hi. reflexivity. }
  destruct (for_each _ connections []) as [traces|e]; [|reflexivity].
  rewrite !bind_Ok.
  rewrite (for_each_ext (ChartScript1Run.level_body hash nodes)
             (ChartScript1.level_body (PyDict.of_items node_items)));
    [reflexivity|].
  intros s level.
  unfold ChartScript1Run.level_body, ChartScript1.level_body.
  assert (ChartScript1Run.level_nodes nodes level
          = ChartScript1.level_nodes (PyDict.of_items node_items) level) as ->.
  { unfold ChartScript1Run.level_nodes, ChartScript1.level_nodes. now rewrite Hi. }
  destruct (ChartScript1.level_nodes (PyDict.of_items node_items) level)
    as [|name0 names]; [reflexivity|].
  assert (forall (proj : ChartScript1.node -> PyNum.t) l,
            map_result (fun name => n ← PyHash.getitem hash name nodes;
                                    Ok (proj n)) l
            = map_result (fun name => n ← PyDict.getitem name
                                            (PyDict.of_items node_items);
                                      Ok (proj n)) l) as Hm.
  { intros proj l. apply map_result_ext. intros a.
    rewrite (hashed_getitem a nodes Hw), Hi. reflexivity. }
  rewrite !Hm. reflexivity.
Qed.

End Runs.

(** C9: both scripts are deterministic in their geometry.  Two runs of
    the interpreter differ in the hash of strings, hence in where the keys
    sit in the dictionaries and in the layout and iteration order of the
    set [seen_types]; on identical data the two runs still give the same
    coordinates and colours of nodes, edge segments and arrowheads, trace
    by trace, or stop on the same exception.  On the script's own graph
    two runs do leave [seen_types] in different iteration orders, with the
    same geometry. *)
Theorem geometry_same_in_every_run :
  (forall hash1 hash2 g,
      Plotly.run_geometry (ChartScriptRun.render hash1 g)
      = Plotly.run_geometry (ChartScriptRun.render hash2 g))
  /\ (forall hash1 hash2 node_items connections,
        Plotly.run_geometry (ChartScript1Run.render hash1 node_items connections)
        = Plotly.run_geometry (ChartScript1Run.render hash2 node_items connections))
  /\ (exists seen1 fig1 seen2 fig2,
        ChartScriptRun.run PyHash.hash_constant ChartScript.data = Ok (seen1, fig1)
        /\ ChartScriptRun.run PyHash.hash_length ChartScript.data = Ok (seen2, fig2)
        /\ PyHash.iteration_order seen1 = ["Input"; "Process"; "Output"]
        /\ PyHash.iteration_order seen2 = ["Input"; "Output"; "Process"]
        /\ Plotly.geometry fig1 = Plotly.geometry fig2).
Proof.
  split; [|split].
  - intros hash1 hash2 g. now rewrite !flow_run_refines.
  - intros hash1 hash2 node_items connections. now rewrite !tree_run_refines.
  - destruct (ChartScriptRun.run PyHash.hash_constant ChartScript.data)
      as [[seen1 fig1]|e1] eqn:E1; [|vm_compute in E1; discriminate E1].
    destruct (ChartScriptRun.run PyHash.hash_length ChartScript.data)
      as [[seen2 fig2]|e2] eqn:E2; [|vm_compute in E2; discriminate E2].
    exists seen1, fig1, seen2, fig2.
    split; [reflexivity|]. split; [reflexivity|].
    vm_compute in E1. injection E1 as <- <-.
    vm_compute in E2. injection E2 as <- <-.
    repeat split.
Qed.
